(** * The Levermann score filter of autotrader

    A shallow embedding of [autotrader/filter/levermann_score.py]
    (class [LevermannScore]) and the properties of its score computation:
    the six sub-score calculators, their sum and the BUY/SELL/HOLD
    classifier of [analyse].

    Conventions of the embedding.
    - Python numbers read from the data source (statement facts, analyst
      counts, EPS figures) are exact rationals [Q]; the integer counters
      [levermann] and [perf_measure] and the thresholds are [Z].
    - The bar arrays hold a date column beside the prices, so they are
      arrays of Python objects and a close taken out of them is a Python
      float: a finite value, an infinity or a NaN ([npfloat], finite
      values being exact rationals).  Dividing by a zero close raises
      [ZeroDivisionError] like every Python division.
    - A one-dimensional numpy array is its memory and the direction in
      which it is read ([ndarray]): [a[::-1]] is a view of the same
      memory, and [np.nditer] walks the memory, not the view.
    - A Python exception is a value of [exn]; a method that may raise
      returns [M A].  Evaluation order is the order of the binds. *)

From Stdlib Require Import ZArith QArith List Bool String Lia Lqa.
Import ListNotations.

Local Open Scope Z_scope.

(** ** Exceptions and the error monad *)

Inductive exn : Type :=
| KeyError
| IndexError
| TypeError
| ZeroDivisionError
| ValueError
| AttributeError.

Inductive M (A : Type) : Type :=
| Ok (a : A)
| Raise (e : exn).

Arguments Ok {A} a.
Arguments Raise {A} e.

Definition bind {A B : Type} (m : M A) (f : A -> M B) : M B :=
  match m with
  | Ok a => f a
  | Raise e => Raise e
  end.

Notation "x <- m ;; k" := (bind m (fun x => k))
  (at level 61, m at next level, right associativity).

(** ** Numbers *)

(** Python's [a > b] and [a < b] on exact numbers. *)
Definition Qgtb (a b : Q) : bool := negb (Qle_bool a b).
Definition Qltb (a b : Q) : bool := negb (Qle_bool b a).

(** Python's true division [a / b]: raises on a zero divisor. *)
Definition pydiv (a b : Q) : M Q :=
  if Qeq_bool b 0 then Raise ZeroDivisionError else Ok (a / b)%Q.

(** A float, as Python's [float] and numpy's [float64] have them: a
    finite value, an infinity or a NaN. *)
Inductive npfloat : Type :=
| Fin (q : Q)
| PosInf
| NegInf
| NaN.

(** Python's [a / b] on floats: a zero divisor raises, whatever the
    dividend; the other cases are those of IEEE arithmetic. *)
Definition float_div (a b : npfloat) : M npfloat :=
  match b with
  | Fin y =>
      if Qeq_bool y 0 then Raise ZeroDivisionError
      else Ok match a with
              | Fin x => Fin (x / y)%Q
              | PosInf => if Qltb 0 y then PosInf else NegInf
              | NegInf => if Qltb 0 y then NegInf else PosInf
              | NaN => NaN
              end
  | PosInf | NegInf =>
      Ok match a with
         | Fin _ => Fin 0
         | _ => NaN
         end
  | NaN => Ok NaN
  end.

(** An infinity of the given sign times a finite factor. *)
Definition scale_inf (positive : bool) (x : Q) : npfloat :=
  if Qeq_bool x 0 then NaN
  else if Bool.eqb positive (Qltb 0 x) then PosInf else NegInf.

(** [a * b] on floats. *)
Definition np_mul (a b : npfloat) : npfloat :=
  match a, b with
  | NaN, _ | _, NaN => NaN
  | Fin x, Fin y => Fin (x * y)%Q
  | Fin x, PosInf | PosInf, Fin x => scale_inf true x
  | Fin x, NegInf | NegInf, Fin x => scale_inf false x
  | PosInf, PosInf | NegInf, NegInf => PosInf
  | PosInf, NegInf | NegInf, PosInf => NegInf
  end.

(** [a - b] on floats. *)
Definition np_sub (a b : npfloat) : npfloat :=
  match a, b with
  | NaN, _ | _, NaN => NaN
  | Fin x, Fin y => Fin (x - y)%Q
  | Fin _, PosInf => NegInf
  | Fin _, NegInf => PosInf
  | PosInf, PosInf => NaN
  | PosInf, _ => PosInf
  | NegInf, NegInf => NaN
  | NegInf, _ => NegInf
  end.

(** [a > b] on floats; every comparison with a NaN is false. *)
Definition np_gtb (a b : npfloat) : bool :=
  match a, b with
  | NaN, _ | _, NaN => false
  | Fin x, Fin y => Qgtb x y
  | PosInf, PosInf => false
  | PosInf, _ => true
  | _, NegInf => match a with NegInf => false | _ => true end
  | _, _ => false
  end.

Definition np_ltb (a b : npfloat) : bool := np_gtb b a.

(** ** Sequences *)

(** Python's [l[i]]: a negative index counts from the end, an index out
    of range raises [IndexError]. *)
Definition py_index {A : Type} (l : list A) (i : Z) : M A :=
  let n := Z.of_nat (List.length l) in
  let j := if i <? 0 then i + n else i in
  if (j <? 0) || (n <=? j) then Raise IndexError
  else match nth_error l (Z.to_nat j) with
       | Some a => Ok a
       | None => Raise IndexError
       end.

(** [np.where(ts < d)[0]]: the positions, in ascending order and counted
    from [i], of the entries below [d]. *)
Fixpoint np_where_lt (ts : list Z) (d : Z) (i : Z) : list Z :=
  match ts with
  | [] => []
  | t :: rest =>
      if t <? d then i :: np_where_lt rest d (i + 1)
      else np_where_lt rest d (i + 1)
  end.

(** ** Data model *)

(** One entry of a trend's [distributionList]; a field is [None] when the
    dictionary lacks the key. *)
Record distribution : Type := {
  Recommendation : option Q;
  NumberOfAnalysts : option Q
}.

Record trend : Type := {
  distributionList : option (list distribution)
}.

(** The dictionary [get_data("recommendation")] returns. *)
Record recommendation : Type := {
  trends : option (list trend)
}.

(** The ['reportDate'] entry of an income record.  A string is carried
    already parsed: [ReportDate d] is a string that [strptime] accepts,
    read as day number [d]; [BadReportDate] is a string it rejects;
    [NotAString] is a value without a [split] method, such as [None]. *)
Inductive report_date : Type :=
| NoReportDate
| BadReportDate
| NotAString
| ReportDate (day : Z).

Record income_record : Type := {
  reportDate : report_date
}.

(** The data source of one instrument, [self.stock].  Its class is not
    part of the filter; the filter only calls
    - [get_data_attr(kind, field)], here [data_attr],
    - [get_data_attr(kind, field, annual=True, quarter_diff=n)], here
      [data_attr_annual], both returning a number, [-1] for a fact that is
      not available,
    - [get_data("recommendation")], a dictionary or [None],
    - [get_data("income")], a list of records; [None] and the empty list
      are both falsy and are both the empty list here. *)
Record stock : Type := {
  data_attr : string -> string -> Q;
  data_attr_annual : string -> string -> Z -> Q;
  recommendation_data : option recommendation;
  income_data : list income_record
}.

(** A row of a bar array: column 0 is the close price, a float, column 5
    the timestamp. *)
Record bar : Type := {
  close : npfloat;
  timestamp : Z
}.

(** A one-dimensional numpy array: the values as they lie in memory, and
    whether the array reads them backwards (a view with a negative
    stride). *)
Record ndarray : Type := {
  memory : list npfloat;
  backwards : bool
}.

(** [a.size] *)
Definition size (a : ndarray) : nat := List.length (memory a).

(** The elements in the order [a[0]], [a[1]], ... *)
Definition elements (a : ndarray) : list npfloat :=
  if backwards a then rev (memory a) else memory a.

(** The elements in the order [np.nditer(a)] yields them: with its
    default order the iterator walks the memory forwards, also when the
    array reads it backwards. *)
Definition nditer (a : ndarray) : list npfloat := memory a.

(** [a[::-1]]: the same memory read the other way. *)
Definition flip (a : ndarray) : ndarray :=
  {| memory := memory a; backwards := negb (backwards a) |}.

(** What [StockIsHot.get_performance] hands back: a numpy array, or a
    sequence without a [size] attribute. *)
Inductive perf_seq : Type :=
| PerfArray (a : ndarray)
| PerfList (l : list npfloat).

(** [p[::-1]] *)
Definition perf_reverse (p : perf_seq) : perf_seq :=
  match p with
  | PerfArray a => PerfArray (flip a)
  | PerfList l => PerfList (rev l)
  end.

(** The filter object once a stock is bound to it: the stock, the two
    bar arrays ([None] when not set), the thresholds and the cached
    composite [self.calc]. *)
Record engine : Type := {
  the_stock : stock;
  bars : option (list bar);
  index_bars : option (list bar);
  buy : Z;
  sell : Z;
  calc : Z
}.

Definition set_calc (e : engine) (c : Z) : engine :=
  {| the_stock := the_stock e;
     bars := bars e;
     index_bars := index_bars e;
     buy := buy e;
     sell := sell e;
     calc := c |}.

Inductive decision : Type :=
| BUY
| SELL
| HOLD.

(** ** The calculators *)

(** [d[k]] on a dictionary entry: [KeyError] when the key is absent. *)
Definition key {A : Type} (o : option A) : M A :=
  match o with
  | Some a => Ok a
  | None => Raise KeyError
  end.

(** [bars[:, 0]]: the close column; slicing [None] is a [TypeError]. *)
Definition close_column (b : option (list bar)) : M (list npfloat) :=
  match b with
  | Some rows => Ok (map close rows)
  | None => Raise TypeError
  end.

(** [bars[:, 5]]: the timestamp column. *)
Definition time_column (b : option (list bar)) : M (list Z) :=
  match b with
  | Some rows => Ok (map timestamp rows)
  | None => Raise TypeError
  end.

(** The loop of [calculate_trendsrating]: the two running sums. *)
Fixpoint trendsrating_sums (datas : list distribution)
    (nominator denominator : Q) : M (Q * Q) :=
  match datas with
  | [] => Ok (nominator, denominator)
  | data :: rest =>
      r <- key (Recommendation data) ;;
      n <- key (NumberOfAnalysts data) ;;
      let nominator := (nominator + r * n)%Q in
      n' <- key (NumberOfAnalysts data) ;;
      let denominator := (denominator + n')%Q in
      trendsrating_sums rest nominator denominator
  end.

(** [calculate_trendsrating]: the weighted rating, [0] when the division
    raises [ZeroDivisionError]. *)
Definition calculate_trendsrating (datas : list distribution) : M Q :=
  sums <- trendsrating_sums datas 0 0 ;;
  match pydiv (fst sums) (snd sums) with
  | Raise ZeroDivisionError => Ok 0%Q
  | r => r
  end.

(** [self.stock.get_data("recommendation")['trends'][k]['distributionList']] *)
Definition trend_distribution (s : stock) (k : Z) : M (list distribution) :=
  match recommendation_data s with
  | None => Raise TypeError
  | Some r =>
      ts <- key (trends r) ;;
      t <- py_index ts k ;;
      key (distributionList t)
  end.

Definition calculate_shareholders_equity (e : engine) : Q :=
  let total_assets := data_attr (the_stock e) "balance" "totalAssets" in
  let current_liabilities :=
    data_attr (the_stock e) "balance" "totalCurrentLiabili" in
  (total_assets - current_liabilities)%Q.

Definition calculate_roe (e : engine) : Q :=
  let net_income := data_attr (the_stock e) "income" "netIncome" in
  let shareholders_equity := calculate_shareholders_equity e in
  if negb (Qeq_bool shareholders_equity 0)
  then (net_income / shareholders_equity)%Q
  else 0%Q.

Definition calculate_ebit_margin (e : engine) : Q :=
  let net_income_before_taxes :=
    data_attr (the_stock e) "income" "netBeforeTaxes" in
  let accumulated_depreciation :=
    data_attr (the_stock e) "balance" "accumulatedDepreciation" in
  let total_revenue := data_attr (the_stock e) "income" "totalRevenue" in
  if Qgtb total_revenue 0
  then ((net_income_before_taxes - accumulated_depreciation) / total_revenue)%Q
  else 0%Q.

Definition calculate_shareholders_equity_ratio (e : engine) : Q :=
  let total_assets := data_attr (the_stock e) "balance" "totalAssets" in
  if Qgtb total_assets 0
  then (calculate_shareholders_equity e / total_assets)%Q
  else 0%Q.

(** The annual diluted EPS, [idx] years back. *)
Definition eps_annual_at (e : engine) (idx : Z) : Q :=
  data_attr_annual (the_stock e) "income" "dilutedEpsExtraOrd" (idx * 4).

(** [range(0, 5)] *)
Definition eps_years : list Z := [0; 1; 2; 3; 4].

(** [__calculate_eps_avg]: the mean of the years that are not [-1], and
    [-1] when there is none. *)
Definition calculate_eps_avg (e : engine) : Q :=
  let acc :=
    fold_left
      (fun (st : Q * Z) (idx : Z) =>
         let eps_annual := eps_annual_at e idx in
         if negb (Qeq_bool eps_annual (-1))
         then ((fst st + eps_annual)%Q, snd st + 1)
         else st)
      eps_years (0%Q, 0) in
  if snd acc =? 0 then (-1)%Q
  else (fst acc / inject_Z (snd acc))%Q.

(** [__calculate_price_earnings_ratios]: [Some [per; per_5]] or [None]. *)
Definition calculate_price_earnings_ratios (e : engine)
    : M (option (list npfloat)) :=
  let eps_estimate := data_attr (the_stock e) "recommendation" "eps" in
  close_prices <- close_column (bars e) ;;
  last_close <- py_index close_prices (-1) ;;
  let eps_avg := calculate_eps_avg e in
  if Qgtb eps_estimate 0 && Qgtb eps_avg 0 then
    per <- float_div last_close (Fin eps_estimate) ;;
    per_5 <- float_div last_close (Fin eps_avg) ;;
    Ok (Some [per; per_5])
  else Ok None.

(** The position of the last bar strictly before day [d]:
    [np.where(column < d)[0][-1]]. *)
Definition last_index_before (b : option (list bar)) (d : Z) : M Z :=
  ts <- time_column b ;;
  py_index (np_where_lt ts d 0) (-1).

(** [bars[[idx, idx - 1]]]: the two rows picked by the index list. *)
Definition rows_at (b : option (list bar)) (idx : Z) : M (bar * bar) :=
  match b with
  | None => Raise TypeError
  | Some rows =>
      r0 <- py_index rows idx ;;
      r1 <- py_index rows (idx - 1) ;;
      Ok (r0, r1)
  end.

(** [__calculate_impact_of_quartly_figures] *)
Definition calculate_impact_of_quartly_figures (e : engine) : M npfloat :=
  match income_data (the_stock e) with
  | [] => Ok (Fin (-1))
  | first :: _ =>
      match reportDate first with
      | NoReportDate => Raise KeyError
      | NotAString => Raise AttributeError
      | BadReportDate => Raise ValueError
      | ReportDate last_quarterly =>
          idx_index <- last_index_before (index_bars e) last_quarterly ;;
          idx_stock <- last_index_before (bars e) last_quarterly ;;
          vals_stock <- rows_at (bars e) idx_stock ;;
          vals_index <- rows_at (index_bars e) idx_index ;;
          perf_quarterly_index_prc <-
            float_div
              (np_mul (Fin 100)
                      (np_sub (close (snd vals_index)) (close (fst vals_index))))
              (close (snd vals_index)) ;;
          perf_quarterly_stock_prc <-
            float_div
              (np_mul (Fin 100)
                      (np_sub (close (snd vals_stock)) (close (fst vals_stock))))
              (close (snd vals_stock)) ;;
          Ok (np_sub perf_quarterly_stock_prc perf_quarterly_index_prc)
      end
  end.

(** [__calculate_rating_differences_in_percent] *)
Definition calculate_rating_differences_in_percent (e : engine) : M Q :=
  d0 <- trend_distribution (the_stock e) 0 ;;
  rating <- calculate_trendsrating d0 ;;
  d2 <- trend_distribution (the_stock e) 2 ;;
  rating_4w <- calculate_trendsrating d2 ;;
  pydiv (100 * (rating_4w - rating)) rating.

(** [__calculate_performance]: the pair [last_close_6m_diff,
    last_close_12m_diff]. *)
Definition calculate_performance (e : engine) : M (npfloat * npfloat) :=
  close_prices <- close_column (bars e) ;;
  close_6m <- py_index close_prices (Z.of_nat (List.length close_prices) / 2) ;;
  last_close <- py_index close_prices (-1) ;;
  first_close <- py_index close_prices 0 ;;
  ratio_6m <- float_div last_close close_6m ;;
  let last_close_6m_diff := np_sub ratio_6m (Fin 1) in
  ratio_12m <- float_div last_close first_close ;;
  let last_close_12m_diff := np_sub ratio_12m (Fin 1) in
  Ok (last_close_6m_diff, last_close_12m_diff).

(** The loop of [__compare_index_with_stock_performance]: [index_perf]
    are the values the iterator yields, [stock_perf] the elements
    [stock_perf[idx]] indexes. *)
Fixpoint compare_loop (index_perf stock_perf : list npfloat)
    (idx perf_measure : Z) : M Z :=
  match index_perf with
  | [] => Ok perf_measure
  | perf :: rest =>
      s <- py_index stock_perf idx ;;
      if np_gtb perf s
      then compare_loop rest stock_perf (idx + 1) (perf_measure + 1)
      else compare_loop rest stock_perf (idx + 1) (perf_measure - 1)
  end.

(** The loop of [__calculate_eps_difference]: [eps_last] after the five
    rounds. *)
Definition eps_last_loop (e : engine) : Q :=
  fold_left
    (fun (eps_last : Q) (idx : Z) =>
       let eps_annual := eps_annual_at e idx in
       if negb (Qeq_bool eps_annual (-1)) then eps_annual else eps_last)
    eps_years 0%Q.

(** [__calculate_eps_difference] *)
Definition calculate_eps_difference (e : engine) : Q :=
  let eps_estimate := data_attr (the_stock e) "recommendation" "eps" in
  let eps_last := eps_last_loop e in
  match pydiv (100 * (eps_estimate - eps_last)) eps_estimate with
  | Ok eps_last_diff_prc => eps_last_diff_prc
  | Raise _ => 0%Q
  end.

Definition calculate_quality (e : engine) : M Z :=
  let levermann := 0 in
  let roe := calculate_roe e in
  let ebit_margin := calculate_ebit_margin e in
  let shareholders_equity_ratio := calculate_shareholders_equity_ratio e in
  let levermann :=
    if Qgtb roe 0.2 then levermann + 1
    else if Qltb roe 0.1 then levermann - 1
    else levermann in
  let levermann :=
    if Qgtb ebit_margin 0.12 then levermann + 1
    else if Qltb ebit_margin 0.06 then levermann - 1
    else levermann in
  let levermann :=
    if Qgtb shareholders_equity_ratio 0.25 then levermann + 1
    else if Qltb shareholders_equity_ratio 0.15 then levermann - 1
    else levermann in
  Ok levermann.

(** [__calculate_rating], the valuation sub-score. *)
Definition calculate_rating (e : engine) : M Z :=
  let levermann := 0 in
  price_earnings_ratios <- calculate_price_earnings_ratios e ;;
  match price_earnings_ratios with
  | None => Ok (-1)
  | Some ratios =>
      Ok (fold_left
            (fun (levermann : Z) (ratio : npfloat) =>
               if np_gtb ratio (Fin 0) || np_ltb ratio (Fin 12)
               then levermann + 1
               else if np_gtb ratio (Fin 12) || np_ltb ratio (Fin 0)
               then levermann - 1
               else levermann)
            ratios levermann)
  end.

Definition calculate_mood (e : engine) : M Z :=
  let levermann := 0 in
  d0 <- trend_distribution (the_stock e) 0 ;;
  rating <- calculate_trendsrating d0 ;;
  impact_quartly <- calculate_impact_of_quartly_figures e ;;
  let levermann :=
    if Qle_bool 2.5 rating then levermann + 1
    else if Qle_bool rating 1.5 then levermann - 1
    else levermann in
  let levermann :=
    if np_gtb impact_quartly (Fin 1) then levermann + 1
    else if np_ltb impact_quartly (Fin (-1)) then levermann - 1
    else levermann in
  Ok levermann.

Definition calculate_momentum (e : engine) : M Z :=
  let levermann := 0 in
  rating_dif_prc <- calculate_rating_differences_in_percent e ;;
  performance_list_stock <- calculate_performance e ;;
  let p0 := fst performance_list_stock in
  let p1 := snd performance_list_stock in
  let levermann :=
    if Qgtb rating_dif_prc 10 then levermann + 1
    else if Qltb rating_dif_prc 10 then levermann - 1
    else levermann in
  let levermann :=
    fold_left
      (fun (levermann : Z) (per_it : npfloat) =>
         if np_gtb per_it (Fin 0.05) then levermann + 1
         else if np_ltb per_it (Fin (-0.05)) then levermann - 1
         else levermann)
      [p0; p1] levermann in
  let levermann :=
    if np_gtb p0 (Fin 0.05) &&
       ((np_gtb (Fin 0.05) p1 && np_gtb p1 (Fin (-0.05)))
        || np_ltb p1 (Fin (-0.05)))
    then levermann + 1
    else if np_ltb p0 (Fin (-0.05)) &&
            ((np_gtb (Fin 0.05) p1 && np_gtb p1 (Fin (-0.05)))
             || np_gtb p1 (Fin 0.05))
    then levermann - 1
    else levermann in
  Ok levermann.

Definition calculate_growing (e : engine) : M Z :=
  let levermann := 0 in
  let eps_last_diff_prc := calculate_eps_difference e in
  let levermann :=
    if Qgtb eps_last_diff_prc 5 then levermann + 1
    else if Qltb eps_last_diff_prc (-5) then levermann - 1
    else levermann in
  Ok levermann.

(** The last lines of [analyse]: the thresholds applied to [self.calc]. *)
Definition classify (c buy_threshold sell_threshold : Z) : decision :=
  if buy_threshold <=? c then BUY
  else if c <=? sell_threshold then SELL
  else HOLD.

(** [except (KeyError, IndexError, TypeError)] *)
Definition caught (x : exn) : bool :=
  match x with
  | KeyError | IndexError | TypeError => true
  | ZeroDivisionError | ValueError | AttributeError => false
  end.

Section WithPerformance.

(** [StockIsHot.get_performance(close_prices, 30)]; the class is not
    part of the filter and is taken as given. *)
Variable get_performance : list npfloat -> Z -> perf_seq.

Definition compare_index_with_stock_performance (e : engine) : M Z :=
  close_prices <- close_column (bars e) ;;
  let stock_perf := perf_reverse (get_performance close_prices 30) in
  index_closes <- close_column (index_bars e) ;;
  let index_perf := perf_reverse (get_performance index_closes 30) in
  let perf_measure := 0 in
  match stock_perf, index_perf with
  | PerfArray sp, PerfArray ip =>
      if (Nat.eqb (size sp) 0) || (Nat.eqb (size ip) 0)
      then Ok perf_measure
      else compare_loop (nditer ip) (elements sp) 0 perf_measure
  | _, _ => Ok perf_measure
  end.

Definition calculate_technique (e : engine) : M Z :=
  let levermann := 0 in
  perf_measure <- compare_index_with_stock_performance e ;;
  let levermann :=
    if perf_measure =? 3 then levermann + 1
    else if perf_measure =? -3 then levermann - 1
    else levermann in
  Ok levermann.

(** The body of the [try] of [analyse]: the six calculators, called from
    left to right, and their sum. *)
Definition levermann_sum (e : engine) : M Z :=
  quality <- calculate_quality e ;;
  rating <- calculate_rating e ;;
  mood <- calculate_mood e ;;
  momentum <- calculate_momentum e ;;
  technique <- calculate_technique e ;;
  growing <- calculate_growing e ;;
  Ok (quality + rating + mood + momentum + technique + growing).

(** [analyse]: the filter after the call and the decision it returns,
    or the exception that leaves the method. *)
Definition analyse (e : engine) : M (engine * decision) :=
  let e' :=
    match levermann_sum e with
    | Ok levermann => Ok (set_calc e levermann)
    | Raise x => if caught x then Ok e else Raise x
    end in
  after <- e' ;;
  Ok (after, classify (calc after) (buy after) (sell after)).

End WithPerformance.

(** [get_calculation]: the cached composite. *)
Definition get_calculation (e : engine) : Z := calc e.

(** ** Vocabulary of the properties *)

(** The six calculators in the order [analyse] calls them. *)
Definition calculators (get_performance : list npfloat -> Z -> perf_seq)
    (e : engine) : list (M Z) :=
  [ calculate_quality e;
    calculate_rating e;
    calculate_mood e;
    calculate_momentum e;
    calculate_technique get_performance e;
    calculate_growing e ].

(** The exception of the first call that raises, if any does. *)
Fixpoint first_raised (calls : list (M Z)) : option exn :=
  match calls with
  | [] => None
  | Ok _ :: rest => first_raised rest
  | Raise x :: _ => Some x
  end.

(** The position-by-position comparison of two performance sequences as a
    sum: [+1] where the index is above the stock, [-1] elsewhere. *)
Fixpoint signed_sum (index_perf stock_perf : list npfloat) : Z :=
  match index_perf, stock_perf with
  | i :: index_rest, s :: stock_rest =>
      (if np_gtb i s then 1 else -1) + signed_sum index_rest stock_rest
  | _, _ => 0
  end.

(** The engine with another buy threshold, and with another sell
    threshold. *)
Definition set_buy (e : engine) (b : Z) : engine :=
  {| the_stock := the_stock e;
     bars := bars e;
     index_bars := index_bars e;
     buy := b;
     sell := sell e;
     calc := calc e |}.

Definition set_sell (e : engine) (s : Z) : engine :=
  {| the_stock := the_stock e;
     bars := bars e;
     index_bars := index_bars e;
     buy := buy e;
     sell := s;
     calc := calc e |}.

(** An entry of a distribution list that has both keys. *)
Definition entry_complete (d : distribution) : bool :=
  match Recommendation d, NumberOfAnalysts d with
  | Some _, Some _ => true
  | _, _ => false
  end.

(** Rating times analysts of one entry, and its analysts. *)
Definition entry_weight (d : distribution) : Q :=
  match Recommendation d, NumberOfAnalysts d with
  | Some r, Some n => (r * n)%Q
  | _, _ => 0%Q
  end.

Definition entry_analysts (d : distribution) : Q :=
  match NumberOfAnalysts d with
  | Some n => n
  | None => 0%Q
  end.

Definition Qsum (l : list Q) : Q := fold_right Qplus 0%Q l.

Definition weighted_total (datas : list distribution) : Q :=
  Qsum (map entry_weight datas).

Definition analysts_total (datas : list distribution) : Q :=
  Qsum (map entry_analysts datas).

(** The annual EPS samples that are not -1, latest first. *)
Definition available_eps (e : engine) : list Q :=
  filter (fun x => negb (Qeq_bool x (-1))) (map (eps_annual_at e) eps_years).

(** The three accounting inputs behind the guards of the quality ratios. *)
Definition total_assets_of (e : engine) : Q :=
  data_attr (the_stock e) "balance" "totalAssets".

Definition total_revenue_of (e : engine) : Q :=
  data_attr (the_stock e) "income" "totalRevenue".

(** The float is a NaN. *)
Definition is_nan (x : npfloat) : bool :=
  match x with
  | NaN => true
  | _ => false
  end.

(** The float is zero. *)
Definition is_zero (x : npfloat) : bool :=
  match x with
  | Fin q => Qeq_bool q 0
  | _ => false
  end.

(** ** Sample data *)

Module Sample.

Definition attr_is (kind field k f : string) : bool :=
  String.eqb kind k && String.eqb field f.

(** Statement facts of a company with total assets 1,000,000, current
    liabilities 400,000, net income 150,000, net income before taxes
    100,000, accumulated depreciation 10,000 and revenue 900,000; the
    EPS estimate is [eps]. *)
Definition facts (eps : Q) (kind field : string) : Q :=
  if attr_is kind field "balance" "totalAssets" then 1000000
  else if attr_is kind field "balance" "totalCurrentLiabili" then 400000
  else if attr_is kind field "income" "netIncome" then 150000
  else if attr_is kind field "income" "netBeforeTaxes" then 100000
  else if attr_is kind field "balance" "accumulatedDepreciation" then 10000
  else if attr_is kind field "income" "totalRevenue" then 900000
  else if attr_is kind field "recommendation" "eps" then eps
  else (-1).

(** Annual diluted EPS: 2 for the latest year, 1.5 and 1 for the two
    years before, nothing older. *)
Definition annual_facts (kind field : string) (quarter_diff : Z) : Q :=
  if attr_is kind field "income" "dilutedEpsExtraOrd" then
    if quarter_diff =? 0 then 2
    else if quarter_diff =? 4 then 1.5
    else if quarter_diff =? 8 then 1
    else (-1)
  else (-1).

Definition entry (rating analysts : Q) : distribution :=
  {| Recommendation := Some rating; NumberOfAnalysts := Some analysts |}.

Definition latest_distribution : list distribution :=
  [entry 5 3; entry 1 1].

Definition trend_list (latest : list distribution) : list trend :=
  [ {| distributionList := Some latest |};
    {| distributionList := Some [entry 4 2; entry 2 2] |};
    {| distributionList := Some [entry 3 2; entry 2 2] |} ].

Definition the_stock_with (eps : Q) (latest : list distribution)
    (income : list income_record) : stock :=
  {| data_attr := facts eps;
     data_attr_annual := annual_facts;
     recommendation_data := Some {| trends := Some (trend_list latest) |};
     income_data := income |}.

Definition mkbar (c : Q) (t : Z) : bar :=
  {| close := Fin c; timestamp := t |}.

Definition stock_bars : list bar :=
  [mkbar 10 0; mkbar 11 1; mkbar 12 2; mkbar 13 3].

Definition benchmark_bars : list bar :=
  [mkbar 100 0; mkbar 101 1; mkbar 102 2; mkbar 103 3].

Definition engine_with (s : stock) (cached : Z) : engine :=
  {| the_stock := s;
     bars := Some stock_bars;
     index_bars := Some benchmark_bars;
     buy := 3;
     sell := -2;
     calc := cached |}.

(** Complete data: every calculator returns. *)
Definition complete (eps : Q) : engine :=
  engine_with
    (the_stock_with eps latest_distribution [ {| reportDate := ReportDate 3 |} ])
    0.


(** No recommendation data at all, and a cached composite of -5. *)
Definition no_recommendation : engine :=
  engine_with
    {| data_attr := facts 2.2;
       data_attr_annual := annual_facts;
       recommendation_data := None;
       income_data := [] |}
    (-5).

(** The latest trend lists no analyst. *)
Definition no_analysts : engine :=
  engine_with (the_stock_with 2.2 [] []) 0.

(** A stand-in for [get_performance]: the closes are cut into blocks of
    [n] bars, oldest first, and each full block gives its relative
    change [(last - first) / first] (NaN for a block that starts at 0);
    the result is a freshly allocated array. *)
Fixpoint block_performance (fuel : nat) (closes : list npfloat) (n : nat)
    : list npfloat :=
  match fuel with
  | O => []
  | S fuel' =>
      if (List.length closes <? n)%nat then []
      else
        let block := firstn n closes in
        let first := hd NaN block in
        match float_div (np_sub (last block NaN) first) first with
        | Ok change => change
        | Raise _ => NaN
        end :: block_performance fuel' (skipn n closes) n
  end.

Definition performance (closes : list npfloat) (n : Z) : perf_seq :=
  PerfArray
    {| memory :=
         block_performance (List.length closes) closes (Z.to_nat n);
       backwards := false |}.

(** Ninety bars: the stock stays at 10 while the benchmark climbs by one
    point a bar, so the benchmark is ahead in each of the three blocks. *)
Definition flat_bars : list bar :=
  map (fun i => mkbar 10 (Z.of_nat i)) (seq 0 90).

Definition rising_bars : list bar :=
  map (fun i => mkbar (inject_Z (100 + Z.of_nat i)) (Z.of_nat i)) (seq 0 90).

Definition lagging : engine :=
  {| the_stock := the_stock_with 2.2 latest_distribution [];
     bars := Some flat_bars;
     index_bars := Some rising_bars;
     buy := 3;
     sell := -2;
     calc := 0 |}.

(** The rating change and the price performance of [complete 2.2]. *)
Definition complete_rating_change : Q :=
  match calculate_rating_differences_in_percent (complete 2.2) with
  | Ok d => d
  | Raise _ => 0%Q
  end.

Definition complete_performance : npfloat * npfloat :=
  match calculate_performance (complete 2.2) with
  | Ok p => p
  | Raise _ => (NaN, NaN)
  end.

(** An EPS estimate of 2.05 against a latest annual EPS of 2. *)
Definition small_growth : engine := complete 2.05.

(** One entry without its analyst count. *)
Definition broken_distribution : list distribution :=
  [ entry 5 3; {| Recommendation := Some 1%Q; NumberOfAnalysts := None |} ].

(** Only two trend snapshots. *)
Definition two_trends : engine :=
  engine_with
    {| data_attr := facts 2.2;
       data_attr_annual := annual_facts;
       recommendation_data :=
         Some {| trends :=
                   Some [ {| distributionList := Some latest_distribution |};
                          {| distributionList := Some [entry 4 2] |} ] |};
       income_data := [] |}
    0.

(** No annual EPS on record. *)
Definition no_eps_history : engine :=
  engine_with
    {| data_attr := facts 2.2;
       data_attr_annual := fun _ _ _ => (-1)%Q;
       recommendation_data :=
         Some {| trends := Some (trend_list latest_distribution) |};
       income_data := [] |}
    0.

(** A company without assets, liabilities or revenue. *)
Definition empty_books : engine :=
  engine_with
    {| data_attr := fun _ _ => 0%Q;
       data_attr_annual := annual_facts;
       recommendation_data :=
         Some {| trends := Some (trend_list latest_distribution) |};
       income_data := [] |}
    0.

(** A report dated on the day of the first bar, and one whose date does
    not parse. *)
Definition early_report : engine :=
  engine_with
    (the_stock_with 2.2 latest_distribution
                    [ {| reportDate := ReportDate 0 |} ])
    0.

Definition unreadable_report : engine :=
  engine_with
    (the_stock_with 2.2 latest_distribution
                    [ {| reportDate := BadReportDate |} ])
    7.

(** An empty bar array. *)
Definition without_bars : engine :=
  {| the_stock := the_stock_with 2.2 latest_distribution [];
     bars := Some [];
     index_bars := Some benchmark_bars;
     buy := 3;
     sell := -2;
     calc := 0 |}.

(** The last close is a NaN. *)
Definition nan_close : engine :=
  {| the_stock := the_stock_with 2.2 latest_distribution [];
     bars := Some [mkbar 10 0; mkbar 11 1;
                   {| close := NaN; timestamp := 2 |}];
     index_bars := Some benchmark_bars;
     buy := 3;
     sell := -2;
     calc := 0 |}.

(** The first close is 0. *)
Definition zero_first_close : engine :=
  {| the_stock := the_stock_with 2.2 latest_distribution [];
     bars := Some [mkbar 0 0; mkbar 11 1; mkbar 12 2; mkbar 13 3];
     index_bars := Some benchmark_bars;
     buy := 3;
     sell := -2;
     calc := 0 |}.

(** The close two bars before the report is 0. *)
Definition zero_previous_close : engine :=
  {| the_stock :=
       the_stock_with 2.2 latest_distribution
                      [ {| reportDate := ReportDate 3 |} ];
     bars := Some [mkbar 10 0; mkbar 0 1; mkbar 12 2; mkbar 13 3];
     index_bars := Some benchmark_bars;
     buy := 3;
     sell := -2;
     calc := 0 |}.

(** Thirty bars of the stock against ninety of the benchmark. *)
Definition short_history : engine :=
  {| the_stock := the_stock_with 2.2 latest_distribution [];
     bars := Some (firstn 30 flat_bars);
     index_bars := Some rising_bars;
     buy := 3;
     sell := -2;
     calc := 0 |}.

End Sample.

(** ** The classifier *)

Lemma Ok_inj {A : Type} (a b : A) : Ok a = Ok b -> a = b.
Proof. intros H. injection H as H. exact H. Qed.

Lemma classify_buy (c b s : Z) : b <= c -> classify c b s = BUY.
Proof.
  intros H. unfold classify.
  destruct (Z.leb_spec b c); [reflexivity | lia].
Qed.

Lemma classify_sell (c b s : Z) : c < b -> c <= s -> classify c b s = SELL.
Proof.
  intros Hb Hs. unfold classify.
  destruct (Z.leb_spec b c); [lia |].
  destruct (Z.leb_spec c s); [reflexivity | lia].
Qed.

Lemma classify_hold (c b s : Z) : c < b -> s < c -> classify c b s = HOLD.
Proof.
  intros Hb Hs. unfold classify.
  destruct (Z.leb_spec b c); [lia |].
  destruct (Z.leb_spec c s); [lia | reflexivity].
Qed.

Lemma classify_buy_inv (c b s : Z) : classify c b s = BUY -> b <= c.
Proof.
  unfold classify.
  destruct (Z.leb_spec b c); [trivial |].
  destruct (c <=? s); discriminate.
Qed.

Lemma classify_sell_inv (c b s : Z) :
  classify c b s = SELL -> c < b /\ c <= s.
Proof.
  unfold classify.
  destruct (Z.leb_spec b c); [discriminate |].
  destruct (Z.leb_spec c s); [auto | discriminate].
Qed.

Lemma classify_hold_inv (c b s : Z) :
  classify c b s = HOLD -> c < b /\ s < c.
Proof.
  unfold classify.
  destruct (Z.leb_spec b c); [discriminate |].
  destruct (Z.leb_spec c s); [discriminate | auto].
Qed.

(** ** Aggregation *)

Section Aggregation.

Variable get_performance : list npfloat -> Z -> perf_seq.

(** When all six calls return, the body of the [try] is their sum. *)
Lemma levermann_sum_ok (e : engine) (q v m mo t g : Z) :
  calculate_quality e = Ok q ->
  calculate_rating e = Ok v ->
  calculate_mood e = Ok m ->
  calculate_momentum e = Ok mo ->
  calculate_technique get_performance e = Ok t ->
  calculate_growing e = Ok g ->
  levermann_sum get_performance e = Ok (q + v + m + mo + t + g).
Proof.
  intros Hq Hv Hm Hmo Ht Hg. unfold levermann_sum.
  rewrite Hq, Hv, Hm, Hmo, Ht, Hg. reflexivity.
Qed.

(** The body of the [try] raises what the first failing call raises. *)
Lemma levermann_sum_raises (e : engine) (x : exn) :
  first_raised (calculators get_performance e) = Some x ->
  levermann_sum get_performance e = Raise x.
Proof.
  unfold calculators, levermann_sum. cbn [first_raised].
  destruct (calculate_quality e); [| intros [= ->]; reflexivity].
  destruct (calculate_rating e); [| intros [= ->]; reflexivity].
  destruct (calculate_mood e); [| intros [= ->]; reflexivity].
  destruct (calculate_momentum e); [| intros [= ->]; reflexivity].
  destruct (calculate_technique get_performance e);
    [| intros [= ->]; reflexivity].
  destruct (calculate_growing e); [| intros [= ->]; reflexivity].
  discriminate.
Qed.

(** C1.  When no calculator raises, [analyse] stores the sum of the six
    sub-scores as the composite and returns BUY when the composite is at
    least the buy threshold, else SELL when it is at most the sell
    threshold, else HOLD; the boundaries are inclusive. *)
Theorem analyse_composite_and_decision
    (e : engine) (quality valuation mood momentum technique growth : Z) :
  calculate_quality e = Ok quality ->
  calculate_rating e = Ok valuation ->
  calculate_mood e = Ok mood ->
  calculate_momentum e = Ok momentum ->
  calculate_technique get_performance e = Ok technique ->
  calculate_growing e = Ok growth ->
  let composite :=
    quality + valuation + mood + momentum + technique + growth in
  exists d : decision,
    analyse get_performance e = Ok (set_calc e composite, d) /\
    calc (set_calc e composite) = composite /\
    (buy e <= composite -> d = BUY) /\
    (composite < buy e -> composite <= sell e -> d = SELL) /\
    (composite < buy e -> sell e < composite -> d = HOLD) /\
    (composite = buy e -> d = BUY) /\
    (composite = sell e -> sell e < buy e -> d = SELL).
Proof.
  intros Hq Hv Hm Hmo Ht Hg composite.
  exists (classify composite (buy e) (sell e)).
  split.
  - unfold analyse.
    rewrite (levermann_sum_ok e _ _ _ _ _ _ Hq Hv Hm Hmo Ht Hg).
    reflexivity.
  - split; [reflexivity |].
    repeat split; intros.
    + apply classify_buy; assumption.
    + apply classify_sell; assumption.
    + apply classify_hold; assumption.
    + apply classify_buy; lia.
    + apply classify_sell; lia.
Qed.

(** A caught exception: the filter stays as it was and the decision is
    the one of the thresholds on the cached composite. *)
Lemma analyse_caught (e : engine) (x : exn) :
  levermann_sum get_performance e = Raise x ->
  caught x = true ->
  exists d : decision,
    analyse get_performance e = Ok (e, d) /\
    (buy e <= calc e -> d = BUY) /\
    (calc e < buy e -> calc e <= sell e -> d = SELL) /\
    (calc e < buy e -> sell e < calc e -> d = HOLD).
Proof.
  intros Hsum Hx.
  exists (classify (calc e) (buy e) (sell e)).
  split; [unfold analyse; rewrite Hsum, Hx; reflexivity |].
  repeat split; intros.
  - apply classify_buy; assumption.
  - apply classify_sell; assumption.
  - apply classify_hold; assumption.
Qed.

(** C2.  When the first calculator that raises raises a [KeyError], an
    [IndexError] or a [TypeError], [analyse] leaves the filter, and so
    the cached composite, as it was and decides on that cached
    composite: BUY when it is at least the buy threshold, else SELL when
    it is at most the sell threshold, else HOLD; with a cached composite
    of -5 and a sell threshold of -2 below the buy threshold this is
    SELL. *)
Theorem analyse_failure_keeps_cached_composite (e : engine) (x : exn) :
  first_raised (calculators get_performance e) = Some x ->
  x = KeyError \/ x = IndexError \/ x = TypeError ->
  exists d : decision,
    analyse get_performance e = Ok (e, d) /\
    (buy e <= calc e -> d = BUY) /\
    (calc e < buy e -> calc e <= sell e -> d = SELL) /\
    (calc e < buy e -> sell e < calc e -> d = HOLD) /\
    (calc e = -5 -> sell e = -2 -> sell e < buy e -> d = SELL).
Proof.
  intros Hfirst Hx.
  destruct (analyse_caught e x (levermann_sum_raises e x Hfirst))
    as (d & Hrun & Hbuy & Hsell & Hhold).
  { destruct Hx as [-> | [-> | ->]]; reflexivity. }
  exists d. repeat split; try assumption.
  intros Hc Hs Hb. apply Hsell; lia.
Qed.

(** An exception that [analyse] does not catch leaves it. *)
Lemma analyse_propagates (e : engine) (x : exn) :
  first_raised (calculators get_performance e) = Some x ->
  caught x = false ->
  analyse get_performance e = Raise x.
Proof.
  intros Hfirst Hx. unfold analyse.
  rewrite (levermann_sum_raises e x Hfirst), Hx. reflexivity.
Qed.

End Aggregation.

Lemma analyse_composite_and_decision_witness :
  exists d : decision,
    analyse Sample.performance (Sample.complete 2.2)
      = Ok (set_calc (Sample.complete 2.2) (2 + 2 + 0 + 1 + 0 + 1), d) /\
    calc (set_calc (Sample.complete 2.2) (2 + 2 + 0 + 1 + 0 + 1))
      = 2 + 2 + 0 + 1 + 0 + 1 /\
    (buy (Sample.complete 2.2) <= 2 + 2 + 0 + 1 + 0 + 1 -> d = BUY) /\
    (2 + 2 + 0 + 1 + 0 + 1 < buy (Sample.complete 2.2) ->
     2 + 2 + 0 + 1 + 0 + 1 <= sell (Sample.complete 2.2) -> d = SELL) /\
    (2 + 2 + 0 + 1 + 0 + 1 < buy (Sample.complete 2.2) ->
     sell (Sample.complete 2.2) < 2 + 2 + 0 + 1 + 0 + 1 -> d = HOLD) /\
    (2 + 2 + 0 + 1 + 0 + 1 = buy (Sample.complete 2.2) -> d = BUY) /\
    (2 + 2 + 0 + 1 + 0 + 1 = sell (Sample.complete 2.2) ->
     sell (Sample.complete 2.2) < buy (Sample.complete 2.2) -> d = SELL).
Proof.
  apply (analyse_composite_and_decision
           Sample.performance (Sample.complete 2.2) 2 2 0 1 0 1);
    vm_compute; reflexivity.
Defined.

Lemma analyse_failure_keeps_cached_composite_witness :
  exists d : decision,
    analyse Sample.performance Sample.no_recommendation
      = Ok (Sample.no_recommendation, d) /\
    d = SELL.
Proof.
  destruct (analyse_failure_keeps_cached_composite
              Sample.performance Sample.no_recommendation TypeError)
    as (d & Hkept & _ & _ & _ & Hsell).
  - vm_compute; reflexivity.
  - right; right; reflexivity.
  - exists d. split; [exact Hkept |].
    apply Hsell; [reflexivity | reflexivity | vm_compute; reflexivity].
Defined.

(** ** Thresholds *)

(** Raising the buy threshold leaves the decision alone or turns a BUY
    into a HOLD, provided the sell threshold is below the buy threshold. *)
Lemma classify_raise_buy (c b s b' : Z) :
  s < b -> b <= b' ->
  classify c b' s = classify c b s \/
  (classify c b s = BUY /\ classify c b' s = HOLD).
Proof.
  intros Hsb Hbb'.
  destruct (Z.lt_ge_cases c b) as [Hlt | Hge].
  - left. destruct (Z.le_gt_cases c s).
    + rewrite !classify_sell by lia. reflexivity.
    + rewrite !classify_hold by lia. reflexivity.
  - destruct (Z.lt_ge_cases c b') as [Hlt' | Hge'].
    + right. split; [apply classify_buy; lia | apply classify_hold; lia].
    + left. rewrite !classify_buy by lia. reflexivity.
Qed.

(** Lowering the sell threshold leaves the decision alone or turns a SELL
    into a HOLD. *)
Lemma classify_lower_sell (c b s s' : Z) :
  s' <= s ->
  classify c b s' = classify c b s \/
  (classify c b s = SELL /\ classify c b s' = HOLD).
Proof.
  intros Hss'.
  destruct (Z.lt_ge_cases c b) as [Hlt | Hge].
  - destruct (Z.le_gt_cases c s) as [Hle | Hgt].
    + destruct (Z.le_gt_cases c s') as [Hle' | Hgt'].
      * left. rewrite !classify_sell by lia. reflexivity.
      * right. split; [apply classify_sell; lia | apply classify_hold; lia].
    + left. rewrite !classify_hold by lia. reflexivity.
  - left. rewrite !classify_buy by lia. reflexivity.
Qed.

(** C9.  For a fixed composite and a sell threshold below the buy
    threshold, a higher buy threshold changes the decision only from BUY
    to HOLD, and a lower sell threshold changes it only from SELL to
    HOLD. *)
Theorem threshold_monotonicity (c b s : Z) :
  s < b ->
  (forall b' : Z, b <= b' ->
     classify c b' s = classify c b s \/
     (classify c b s = BUY /\ classify c b' s = HOLD /\
      classify c b' s <> SELL)) /\
  (forall s' : Z, s' <= s ->
     classify c b s' = classify c b s \/
     (classify c b s = SELL /\ classify c b s' = HOLD)).
Proof.
  intros Hsb. split.
  - intros b' Hb'.
    destruct (classify_raise_buy c b s b' Hsb Hb') as [Heq | [Hbuy Hhold]].
    + left; exact Heq.
    + right. repeat split; [exact Hbuy | exact Hhold |].
      rewrite Hhold; discriminate.
  - intros s' Hs'. apply classify_lower_sell; exact Hs'.
Qed.

Lemma threshold_monotonicity_witness :
  (forall b' : Z, 3 <= b' ->
     classify 3 b' (-2) = classify 3 3 (-2) \/
     (classify 3 3 (-2) = BUY /\ classify 3 b' (-2) = HOLD /\
      classify 3 b' (-2) <> SELL)) /\
  (forall s' : Z, s' <= -2 ->
     classify 3 3 s' = classify 3 3 (-2) \/
     (classify 3 3 (-2) = SELL /\ classify 3 3 s' = HOLD)).
Proof.
  apply (threshold_monotonicity 3 3 (-2)). lia.
Defined.

(** The thresholds are not checked against each other: with the sell
    threshold above the buy threshold, raising the buy threshold turns a
    BUY into a SELL. *)
Remark raise_buy_unordered_thresholds :
  classify 0 0 5 = BUY /\ classify 0 1 5 = SELL.
Proof. split; reflexivity. Qed.

(** The sub-scores do not read the thresholds, so the same holds for the
    decisions [analyse] returns. *)
Lemma analyse_raise_buy (get_performance : list npfloat -> Z -> perf_seq)
    (e e1 e2 : engine) (b' : Z) (d1 d2 : decision) :
  sell e < buy e -> buy e <= b' ->
  analyse get_performance e = Ok (e1, d1) ->
  analyse get_performance (set_buy e b') = Ok (e2, d2) ->
  d2 = d1 \/ (d1 = BUY /\ d2 = HOLD).
Proof.
  intros Hsb Hb'. unfold analyse.
  change (levermann_sum get_performance (set_buy e b'))
    with (levermann_sum get_performance e).
  destruct (levermann_sum get_performance e) as [c | x].
  - cbn. intros [= <- <-] [= <- <-].
    apply classify_raise_buy; assumption.
  - destruct (caught x); [| discriminate].
    cbn. intros [= <- <-] [= <- <-].
    apply classify_raise_buy; assumption.
Qed.

Lemma analyse_lower_sell (get_performance : list npfloat -> Z -> perf_seq)
    (e e1 e2 : engine) (s' : Z) (d1 d2 : decision) :
  s' <= sell e ->
  analyse get_performance e = Ok (e1, d1) ->
  analyse get_performance (set_sell e s') = Ok (e2, d2) ->
  d2 = d1 \/ (d1 = SELL /\ d2 = HOLD).
Proof.
  intros Hs'. unfold analyse.
  change (levermann_sum get_performance (set_sell e s'))
    with (levermann_sum get_performance e).
  destruct (levermann_sum get_performance e) as [c | x].
  - cbn. intros [= <- <-] [= <- <-].
    apply classify_lower_sell; assumption.
  - destruct (caught x); [| discriminate].
    cbn. intros [= <- <-] [= <- <-].
    apply classify_lower_sell; assumption.
Qed.

(** With equal thresholds a composite on the boundary is a BUY: the buy
    test comes first. *)
Remark classify_equal_thresholds : classify 3 3 3 = BUY.
Proof. reflexivity. Qed.

(** ** Division by zero *)

(** A latest rating of zero makes the rating change raise. *)
Lemma rating_differences_zero_rating
    (e : engine) (d0 d2 : list distribution) (rating rating_4w : Q) :
  trend_distribution (the_stock e) 0 = Ok d0 ->
  calculate_trendsrating d0 = Ok rating ->
  trend_distribution (the_stock e) 2 = Ok d2 ->
  calculate_trendsrating d2 = Ok rating_4w ->
  (rating == 0)%Q ->
  calculate_rating_differences_in_percent e = Raise ZeroDivisionError.
Proof.
  intros H0 Hr H2 Hr4 Hz.
  unfold calculate_rating_differences_in_percent.
  rewrite H0. cbn [bind]. rewrite Hr. cbn [bind].
  rewrite H2. cbn [bind]. rewrite Hr4. cbn [bind].
  unfold pydiv. apply Qeq_bool_iff in Hz. rewrite Hz. reflexivity.
Qed.

(** C3.  With a latest trend that lists no analyst, the weighted rating
    is 0, the rating change divides by it, and the [ZeroDivisionError]
    leaves [analyse]: no decision is returned. *)
Theorem analyse_propagates_zero_division
    (get_performance : list npfloat -> Z -> perf_seq) :
  calculate_trendsrating [] = Ok 0%Q /\
  calculate_quality Sample.no_analysts = Ok 2 /\
  calculate_rating Sample.no_analysts = Ok 2 /\
  calculate_mood Sample.no_analysts = Ok (-1) /\
  calculate_momentum Sample.no_analysts = Raise ZeroDivisionError /\
  analyse get_performance Sample.no_analysts = Raise ZeroDivisionError.
Proof.
  repeat split; vm_compute; reflexivity.
Qed.

(** ** Comparisons and indexing *)

Lemma Qgtb_true_iff (a b : Q) : Qgtb a b = true <-> (b < a)%Q.
Proof.
  unfold Qgtb. rewrite negb_true_iff. split.
  - intros H. apply Qnot_le_lt. intros Hle.
    apply Qle_bool_iff in Hle. congruence.
  - intros H. apply not_true_is_false. intros Hle.
    apply Qle_bool_iff in Hle. exact (Qlt_not_le _ _ H Hle).
Qed.

Lemma Qgtb_false_iff (a b : Q) : Qgtb a b = false <-> (a <= b)%Q.
Proof.
  unfold Qgtb. rewrite negb_false_iff. apply Qle_bool_iff.
Qed.

Lemma Qltb_true_iff (a b : Q) : Qltb a b = true <-> (a < b)%Q.
Proof. exact (Qgtb_true_iff b a). Qed.

Lemma Qltb_false_iff (a b : Q) : Qltb a b = false <-> (b <= a)%Q.
Proof. exact (Qgtb_false_iff b a). Qed.

Lemma nth_error_last {A : Type} (l : list A) (d : A) :
  l <> [] -> nth_error l (List.length l - 1) = Some (last l d).
Proof.
  induction l as [| a [| b l'] IH]; [congruence | reflexivity |].
  intros _. specialize (IH ltac:(discriminate)).
  cbn [List.length] in *.
  replace (S (S (List.length l')) - 1)%nat with (S (List.length l')) by lia.
  replace (S (List.length l') - 1)%nat with (List.length l') in IH by lia.
  cbn [nth_error]. rewrite IH. reflexivity.
Qed.

(** [l[-1]] is the last element of a sequence that has one. *)
Lemma py_index_last {A : Type} (l : list A) (d : A) :
  l <> [] -> py_index l (-1) = Ok (last l d).
Proof.
  intros Hne. unfold py_index.
  assert (Hlen : (0 < List.length l)%nat)
    by (destruct l; [congruence | cbn; lia]).
  change (-1 <? 0) with true. cbn iota.
  replace ((-1 + Z.of_nat (List.length l) <? 0)
           || (Z.of_nat (List.length l) <=? -1 + Z.of_nat (List.length l)))
    with false.
  2:{ symmetry. apply orb_false_iff. split.
      - apply Z.ltb_ge. lia.
      - apply Z.leb_gt. lia. }
  replace (Z.to_nat (-1 + Z.of_nat (List.length l)))
    with (List.length l - 1)%nat by lia.
  rewrite (nth_error_last l d Hne). reflexivity.
Qed.

(** [l[-1]] raises on the empty sequence. *)
Lemma py_index_last_nil {A : Type} : py_index (@nil A) (-1) = Raise IndexError.
Proof. reflexivity. Qed.

(** A division by a positive number does not raise, and is a NaN only
    for a NaN dividend. *)
Lemma float_div_positive (a : npfloat) (b : Q) :
  (0 < b)%Q ->
  exists r : npfloat,
    float_div a (Fin b) = Ok r /\ is_nan r = is_nan a.
Proof.
  intros Hb. unfold float_div.
  destruct (Qeq_bool b 0) eqn:Hz.
  - apply Qeq_bool_iff in Hz. rewrite Hz in Hb.
    exfalso. exact (Qlt_irrefl 0 Hb).
  - apply Qltb_true_iff in Hb. rewrite Hb.
    eexists. split; [reflexivity |]. destruct a; reflexivity.
Qed.

(** Every ratio that is a number is above 0 or below 12; a NaN passes
    neither test. *)
Lemma ratio_first_branch (ratio : npfloat) :
  np_gtb ratio (Fin 0) || np_ltb ratio (Fin 12) = negb (is_nan ratio).
Proof.
  destruct ratio as [q | | |]; try reflexivity.
  unfold np_ltb. cbn [np_gtb is_nan negb].
  destruct (Qgtb q 0) eqn:Hq; [reflexivity |].
  apply Qgtb_false_iff in Hq. cbn [orb].
  apply Qgtb_true_iff.
  apply Qle_lt_trans with (y := 0%Q); [exact Hq | reflexivity].
Qed.

Lemma ratio_second_branch_nan (ratio : npfloat) :
  is_nan ratio = true ->
  np_gtb ratio (Fin 12) || np_ltb ratio (Fin 0) = false.
Proof. destruct ratio; [discriminate | discriminate | discriminate |]. reflexivity. Qed.

(** The points of the loop over two ratios that are NaN together. *)
Lemma rating_loop (per per_5 : npfloat) :
  is_nan per_5 = is_nan per ->
  fold_left
    (fun (levermann : Z) (ratio : npfloat) =>
       if np_gtb ratio (Fin 0) || np_ltb ratio (Fin 12)
       then levermann + 1
       else if np_gtb ratio (Fin 12) || np_ltb ratio (Fin 0)
       then levermann - 1
       else levermann)
    [per; per_5] 0
  = if is_nan per then 0 else 2.
Proof.
  intros Hsame. cbn [fold_left]. rewrite !ratio_first_branch, Hsame.
  destruct (is_nan per) eqn:Hnan; cbn [negb]; [| reflexivity].
  rewrite (ratio_second_branch_nan per Hnan).
  assert (Hnan5 : is_nan per_5 = true) by congruence.
  rewrite (ratio_second_branch_nan per_5 Hnan5). reflexivity.
Qed.

(** ** Valuation *)

Section Valuation.

Variable e : engine.

Let eps_estimate : Q := data_attr (the_stock e) "recommendation" "eps".
Let eps_avg : Q := calculate_eps_avg e.

(** With a last close at hand, the ratios are there exactly when both
    EPS figures are positive, and they are NaN exactly when the last
    close is. *)
Lemma price_earnings_ratios_spec (close_prices : list npfloat) :
  close_column (bars e) = Ok close_prices ->
  close_prices <> [] ->
  (Qgtb eps_estimate 0 && Qgtb eps_avg 0 = false ->
   calculate_price_earnings_ratios e = Ok None) /\
  (Qgtb eps_estimate 0 && Qgtb eps_avg 0 = true ->
   exists per per_5 : npfloat,
     calculate_price_earnings_ratios e = Ok (Some [per; per_5]) /\
     is_nan per = is_nan (last close_prices NaN) /\
     is_nan per_5 = is_nan (last close_prices NaN)).
Proof.
  intros Hcol Hne. unfold calculate_price_earnings_ratios.
  rewrite Hcol. cbn [bind].
  rewrite (py_index_last close_prices NaN Hne). cbn [bind].
  fold eps_estimate. fold eps_avg.
  split; intros Hboth; rewrite Hboth; [reflexivity |].
  apply andb_true_iff in Hboth as [Hest Havg].
  apply Qgtb_true_iff in Hest. apply Qgtb_true_iff in Havg.
  destruct (float_div_positive (last close_prices NaN) eps_estimate Hest)
    as (per & Hper & Hnan).
  destruct (float_div_positive (last close_prices NaN) eps_avg Havg)
    as (per_5 & Hper_5 & Hnan_5).
  rewrite Hper. cbn [bind]. rewrite Hper_5. cbn [bind].
  exists per, per_5. split; [reflexivity |]. split; assumption.
Qed.

Lemma rating_unavailable (close_prices : list npfloat) :
  close_column (bars e) = Ok close_prices ->
  close_prices <> [] ->
  (eps_estimate <= 0)%Q \/ (eps_avg <= 0)%Q ->
  calculate_rating e = Ok (-1).
Proof.
  intros Hcol Hne Hle. unfold calculate_rating.
  destruct (price_earnings_ratios_spec close_prices Hcol Hne) as [Hnone _].
  rewrite Hnone; [reflexivity |].
  apply andb_false_iff.
  destruct Hle as [H | H]; [left | right]; apply Qgtb_false_iff; exact H.
Qed.

Lemma rating_available (close_prices : list npfloat) :
  close_column (bars e) = Ok close_prices ->
  close_prices <> [] ->
  (0 < eps_estimate)%Q -> (0 < eps_avg)%Q ->
  calculate_rating e
  = Ok (if is_nan (last close_prices NaN) then 0 else 2).
Proof.
  intros Hcol Hne Hest Havg. unfold calculate_rating.
  destruct (price_earnings_ratios_spec close_prices Hcol Hne) as [_ Hsome].
  destruct Hsome as (per & per_5 & Hrun & Hnan & Hnan_5).
  { apply andb_true_iff. split; apply Qgtb_true_iff; assumption. }
  rewrite Hrun. cbn [bind]. cbv zeta.
  rewrite (rating_loop per per_5) by congruence.
  rewrite Hnan. reflexivity.
Qed.

(** The ratios, when there are any, are two floats that are NaN
    together. *)
Lemma price_earnings_ratios_pair (ratios : list npfloat) :
  calculate_price_earnings_ratios e = Ok (Some ratios) ->
  exists per per_5 : npfloat,
    ratios = [per; per_5] /\ is_nan per_5 = is_nan per.
Proof.
  unfold calculate_price_earnings_ratios.
  destruct (close_column (bars e)) as [cs | x]; [| discriminate].
  cbn [bind].
  destruct (py_index cs (-1)) as [lc | x]; [| discriminate].
  cbn [bind]. fold eps_estimate. fold eps_avg.
  destruct (Qgtb eps_estimate 0) eqn:Hest; [| discriminate].
  destruct (Qgtb eps_avg 0) eqn:Havg; [| discriminate].
  cbn [andb].
  apply Qgtb_true_iff in Hest. apply Qgtb_true_iff in Havg.
  destruct (float_div_positive lc eps_estimate Hest) as (per & Hper & Hnan).
  destruct (float_div_positive lc eps_avg Havg) as (per_5 & Hper_5 & Hnan_5).
  rewrite Hper. cbn [bind]. rewrite Hper_5. cbn [bind].
  intros H. apply Ok_inj in H. injection H as <-.
  exists per, per_5. split; [reflexivity | congruence].
Qed.

Lemma rating_values (v : Z) :
  calculate_rating e = Ok v -> v = -1 \/ v = 0 \/ v = 2.
Proof.
  unfold calculate_rating.
  destruct (calculate_price_earnings_ratios e) as [[ratios |] | x] eqn:Hr;
    cbn [bind]; [| intros [= <-]; left; reflexivity | discriminate].
  destruct (price_earnings_ratios_pair ratios Hr)
    as (per & per_5 & -> & Hsame).
  cbv zeta. rewrite (rating_loop per per_5 Hsame).
  intros H. apply Ok_inj in H. subst v.
  destruct (is_nan per); [right; left | right; right]; reflexivity.
Qed.

(** C10.  The valuation calculator returns nothing but -1, 0 and 2.
    With a last close at hand it returns -1 exactly when the EPS
    estimate or the five-year average EPS is not positive; when both
    are positive it returns 2 exactly when the last close is a number,
    each ratio then passing the first test ("above 0 or below 12"), and
    0 exactly when the last close is a NaN, which passes neither test. *)
Theorem valuation_is_sentinel_zero_or_two :
  (forall v : Z, calculate_rating e = Ok v -> v = -1 \/ v = 0 \/ v = 2) /\
  (forall close_prices : list npfloat,
     close_column (bars e) = Ok close_prices ->
     close_prices <> [] ->
     (calculate_rating e = Ok (-1) <->
      (eps_estimate <= 0)%Q \/ (eps_avg <= 0)%Q) /\
     (calculate_rating e = Ok 2 <->
      (0 < eps_estimate)%Q /\ (0 < eps_avg)%Q /\
      is_nan (last close_prices NaN) = false) /\
     (calculate_rating e = Ok 0 <->
      (0 < eps_estimate)%Q /\ (0 < eps_avg)%Q /\
      is_nan (last close_prices NaN) = true)) /\
  (forall ratios : list npfloat,
     calculate_price_earnings_ratios e = Ok (Some ratios) ->
     List.length ratios = 2%nat /\
     Forall (fun ratio =>
               np_gtb ratio (Fin 0) || np_ltb ratio (Fin 12)
               = negb (is_nan ratio))
            ratios).
Proof.
  split; [exact rating_values |]. split.
  - intros cs Hcol Hne.
    destruct (Qlt_le_dec 0 eps_estimate) as [Hest | Hest];
      [destruct (Qlt_le_dec 0 eps_avg) as [Havg | Havg] |].
    + pose proof (rating_available cs Hcol Hne Hest Havg) as Hrun.
      rewrite Hrun.
      destruct (is_nan (last cs NaN)); repeat split;
        try discriminate; try assumption;
        try (intros [H | H]; exfalso;
             [exact (Qlt_not_le _ _ Hest H) | exact (Qlt_not_le _ _ Havg H)]);
        try (intros (_ & _ & H); discriminate H).
    + pose proof (rating_unavailable cs Hcol Hne (or_intror Havg)) as Hrun.
      rewrite Hrun. repeat split; try discriminate.
      * intros _. right; exact Havg.
      * intros (_ & H & _). exfalso. exact (Qlt_not_le _ _ H Havg).
      * intros (_ & H & _). exfalso. exact (Qlt_not_le _ _ H Havg).
    + pose proof (rating_unavailable cs Hcol Hne (or_introl Hest)) as Hrun.
      rewrite Hrun. repeat split; try discriminate.
      * intros _. left; exact Hest.
      * intros (H & _). exfalso. exact (Qlt_not_le _ _ H Hest).
      * intros (H & _). exfalso. exact (Qlt_not_le _ _ H Hest).
  - intros ratios Hr.
    destruct (price_earnings_ratios_pair ratios Hr)
      as (per & per_5 & -> & _).
    split; [reflexivity |].
    repeat constructor; apply ratio_first_branch.
Qed.

End Valuation.

Lemma valuation_is_sentinel_zero_or_two_witness :
  calculate_rating (Sample.complete 2.2) = Ok 2 /\
  calculate_rating (Sample.complete 0) = Ok (-1) /\
  calculate_rating Sample.nan_close = Ok 0.
Proof.
  split; [| split].
  - destruct (valuation_is_sentinel_zero_or_two (Sample.complete 2.2))
      as (_ & Hexact & _).
    destruct (Hexact (map close Sample.stock_bars)) as (_ & [_ Htwo] & _);
      [reflexivity | discriminate |].
    apply Htwo. repeat split; vm_compute; reflexivity.
  - destruct (valuation_is_sentinel_zero_or_two (Sample.complete 0))
      as (_ & Hexact & _).
    destruct (Hexact (map close Sample.stock_bars)) as ([_ Hminus] & _);
      [reflexivity | discriminate |].
    apply Hminus. left. vm_compute. discriminate.
  - destruct (valuation_is_sentinel_zero_or_two Sample.nan_close)
      as (_ & Hexact & _).
    destruct (Hexact [Fin 10; Fin 11; NaN]) as (_ & _ & [_ Hzero]);
      [reflexivity | discriminate |].
    apply Hzero. repeat split; vm_compute; reflexivity.
Defined.

(** With a NaN as last close and both EPS figures positive, neither test
    of the loop holds for either ratio and the valuation calculator
    returns 0, a value other than -1 and 2. *)
Lemma valuation_nan_close_is_zero :
  (0 < data_attr (the_stock Sample.nan_close) "recommendation" "eps")%Q /\
  (0 < calculate_eps_avg Sample.nan_close)%Q /\
  calculate_price_earnings_ratios Sample.nan_close = Ok (Some [NaN; NaN]) /\
  calculate_rating Sample.nan_close = Ok 0 /\
  calculate_rating Sample.nan_close <> Ok (-1) /\
  calculate_rating Sample.nan_close <> Ok 2.
Proof.
  repeat split; try (vm_compute; reflexivity); vm_compute; discriminate.
Qed.

(** C4.  With an EPS estimate or a five-year average EPS that is not
    positive (and a last close at hand) the valuation calculator returns
    -1, and this -1 is one of the six terms of the composite: when the
    other calculators return, the composite is
    quality + (-1) + mood + momentum + technique + growth. *)
Theorem valuation_sentinel_contributes_minus_one
    (get_performance : list npfloat -> Z -> perf_seq) (e : engine)
    (close_prices : list npfloat)
    (quality mood momentum technique growth : Z) :
  close_column (bars e) = Ok close_prices ->
  close_prices <> [] ->
  (data_attr (the_stock e) "recommendation" "eps" <= 0)%Q \/
  (calculate_eps_avg e <= 0)%Q ->
  calculate_rating e = Ok (-1) /\
  (calculate_quality e = Ok quality ->
   calculate_mood e = Ok mood ->
   calculate_momentum e = Ok momentum ->
   calculate_technique get_performance e = Ok technique ->
   calculate_growing e = Ok growth ->
   let composite := quality + (-1) + mood + momentum + technique + growth in
   analyse get_performance e
     = Ok (set_calc e composite, classify composite (buy e) (sell e))).
Proof.
  intros Hcol Hne Hle.
  pose proof (rating_unavailable e close_prices Hcol Hne Hle) as Hv.
  split; [exact Hv |].
  intros Hq Hm Hmo Ht Hg composite. unfold analyse.
  rewrite (levermann_sum_ok get_performance e _ _ _ _ _ _ Hq Hv Hm Hmo Ht Hg).
  reflexivity.
Qed.

Lemma valuation_sentinel_contributes_minus_one_witness :
  calculate_rating (Sample.complete 0) = Ok (-1) /\
  analyse Sample.performance (Sample.complete 0)
    = Ok (set_calc (Sample.complete 0) (2 + (-1) + 0 + 1 + 0 + 0),
          classify (2 + (-1) + 0 + 1 + 0 + 0)
                   (buy (Sample.complete 0)) (sell (Sample.complete 0))).
Proof.
  destruct (valuation_sentinel_contributes_minus_one
              Sample.performance (Sample.complete 0)
              (map close Sample.stock_bars) 2 0 1 0 0)
    as [Hminus Hsum].
  - reflexivity.
  - discriminate.
  - left. vm_compute. discriminate.
  - split; [exact Hminus |].
    apply Hsum; vm_compute; reflexivity.
Defined.

(** With an EPS estimate of 0 the valuation calculator returns -1 and the
    composite is 2 + (-1) + 0 + 1 + 0 + 0 = 2, not the 3 a valuation term
    of 0 would give. *)
Lemma valuation_sentinel_is_summed :
  (data_attr (the_stock (Sample.complete 0)) "recommendation" "eps" <= 0)%Q /\
  calculate_quality (Sample.complete 0) = Ok 2 /\
  calculate_rating (Sample.complete 0) = Ok (-1) /\
  calculate_mood (Sample.complete 0) = Ok 0 /\
  calculate_momentum (Sample.complete 0) = Ok 1 /\
  calculate_technique Sample.performance (Sample.complete 0) = Ok 0 /\
  calculate_growing (Sample.complete 0) = Ok 0 /\
  exists (after : engine) (d : decision),
    analyse Sample.performance (Sample.complete 0) = Ok (after, d) /\
    calc after = 2 + (-1) + 0 + 1 + 0 + 0 /\
    calc after <> 2 + 0 + 0 + 1 + 0 + 0.
Proof.
  split; [vm_compute; discriminate |].
  repeat (split; [vm_compute; reflexivity |]).
  exists (set_calc (Sample.complete 0) 2), HOLD.
  split; [vm_compute; reflexivity |].
  split; [reflexivity | discriminate].
Qed.

(** ** Technique *)

Lemma py_index_app_at {A : Type} (pre : list A) (s : A) (rest : list A) :
  py_index (pre ++ s :: rest) (Z.of_nat (List.length pre)) = Ok s.
Proof.
  unfold py_index. cbv zeta.
  assert (Hneg : (Z.of_nat (List.length pre) <? 0) = false)
    by (apply Z.ltb_ge; lia).
  assert (Hin : (Z.of_nat (List.length (pre ++ s :: rest))
                 <=? Z.of_nat (List.length pre)) = false).
  { apply Z.leb_gt. rewrite length_app. cbn [List.length]. lia. }
  rewrite !Hneg, Hin. cbn [orb]. rewrite Nat2Z.id.
  rewrite nth_error_app2 by lia. rewrite Nat.sub_diag. reflexivity.
Qed.

Lemma py_index_past_end {A : Type} (l : list A) :
  py_index l (Z.of_nat (List.length l)) = Raise IndexError.
Proof.
  unfold py_index. cbv zeta.
  assert (Hneg : (Z.of_nat (List.length l) <? 0) = false)
    by (apply Z.ltb_ge; lia).
  rewrite !Hneg, Z.leb_refl. reflexivity.
Qed.

(** The loop adds the signed sum to the counter when the stock sequence
    is long enough. *)
Lemma compare_loop_signed_sum (index_perf : list npfloat) :
  forall (stock_perf pre : list npfloat) (perf_measure : Z),
    (List.length index_perf <= List.length stock_perf)%nat ->
    compare_loop index_perf (pre ++ stock_perf)
                 (Z.of_nat (List.length pre)) perf_measure
      = Ok (perf_measure + signed_sum index_perf stock_perf).
Proof.
  induction index_perf as [| i rest IH]; intros sp pre pm Hlen.
  - cbn. f_equal. lia.
  - destruct sp as [| s sr]; [cbn in Hlen; lia |].
    cbn [compare_loop signed_sum].
    rewrite py_index_app_at. cbn [bind].
    assert (Hnext : Z.of_nat (List.length pre) + 1
                    = Z.of_nat (List.length (pre ++ [s])))
      by (rewrite length_app; cbn [List.length]; lia).
    assert (Happ : pre ++ s :: sr = (pre ++ [s]) ++ sr)
      by (rewrite <- app_assoc; reflexivity).
    rewrite Hnext, Happ.
    cbn [List.length] in Hlen.
    destruct (np_gtb i s); rewrite IH by lia; f_equal; lia.
Qed.

(** It raises when the index sequence is the longer one. *)
Lemma compare_loop_index_error (index_perf : list npfloat) :
  forall (stock_perf pre : list npfloat) (perf_measure : Z),
    (List.length stock_perf < List.length index_perf)%nat ->
    compare_loop index_perf (pre ++ stock_perf)
                 (Z.of_nat (List.length pre)) perf_measure
      = Raise IndexError.
Proof.
  induction index_perf as [| i rest IH]; intros sp pre pm Hlen.
  - cbn in Hlen. lia.
  - destruct sp as [| s sr].
    + cbn [compare_loop]. rewrite app_nil_r, py_index_past_end. reflexivity.
    + cbn [compare_loop]. rewrite py_index_app_at. cbn [bind].
      assert (Hnext : Z.of_nat (List.length pre) + 1
                      = Z.of_nat (List.length (pre ++ [s])))
        by (rewrite length_app; cbn [List.length]; lia).
      assert (Happ : pre ++ s :: sr = (pre ++ [s]) ++ sr)
        by (rewrite <- app_assoc; reflexivity).
      rewrite Hnext, Happ.
      cbn [List.length] in Hlen.
      destruct (np_gtb i s); apply IH; lia.
Qed.

Section Technique.

Variable get_performance : list npfloat -> Z -> perf_seq.

(** The score of criterion 12 from the counter. *)
Lemma technique_of_measure (e : engine) (perf_measure : Z) :
  compare_index_with_stock_performance get_performance e = Ok perf_measure ->
  calculate_technique get_performance e
    = Ok (if perf_measure =? 3 then 1
          else if perf_measure =? -3 then -1
          else 0).
Proof.
  intros H. unfold calculate_technique. rewrite H. reflexivity.
Qed.

Lemma elements_length (a : ndarray) :
  List.length (elements a) = size a.
Proof.
  unfold elements, size. destruct (backwards a);
    [apply length_rev | reflexivity].
Qed.

(** What the comparison does once the two columns are read. *)
Lemma compare_on_arrays (e : engine)
    (close_prices index_closes : list npfloat)
    (stock_perf index_perf : ndarray) :
  close_column (bars e) = Ok close_prices ->
  close_column (index_bars e) = Ok index_closes ->
  perf_reverse (get_performance close_prices 30) = PerfArray stock_perf ->
  perf_reverse (get_performance index_closes 30) = PerfArray index_perf ->
  compare_index_with_stock_performance get_performance e
  = if Nat.eqb (size stock_perf) 0 || Nat.eqb (size index_perf) 0
    then Ok 0
    else compare_loop (nditer index_perf) (elements stock_perf) 0 0.
Proof.
  intros Hcs Hci Hsp Hip. unfold compare_index_with_stock_performance.
  rewrite Hcs. cbn [bind]. rewrite Hci. cbn [bind].
  rewrite Hsp, Hip. reflexivity.
Qed.

Lemma compare_without_size (e : engine)
    (close_prices index_closes : list npfloat) :
  close_column (bars e) = Ok close_prices ->
  close_column (index_bars e) = Ok index_closes ->
  (exists l : list npfloat,
     perf_reverse (get_performance close_prices 30) = PerfList l) \/
  (exists l : list npfloat,
     perf_reverse (get_performance index_closes 30) = PerfList l) ->
  compare_index_with_stock_performance get_performance e = Ok 0.
Proof.
  intros Hcs Hci Hlist. unfold compare_index_with_stock_performance.
  rewrite Hcs. cbn [bind]. rewrite Hci. cbn [bind]. cbv zeta.
  destruct Hlist as [[l Hl] | [l Hl]]; rewrite Hl.
  - reflexivity.
  - destruct (perf_reverse (get_performance close_prices 30)); reflexivity.
Qed.

(** C5.  The technique sub-score is 0 when one of the two performance
    sequences has no size or is empty.  Otherwise, the stock array being
    at least as long as the index array, the counter is the signed sum
    of the comparisons of the loop, an index value against a stock value
    each, and the sub-score is +1 for a counter of +3, -1 for a counter
    of -3 and 0 for any other counter. *)
Theorem technique_score_by_signed_sum
    (e : engine) (close_prices index_closes : list npfloat) :
  close_column (bars e) = Ok close_prices ->
  close_column (index_bars e) = Ok index_closes ->
  ((exists l : list npfloat,
      perf_reverse (get_performance close_prices 30) = PerfList l) \/
   (exists l : list npfloat,
      perf_reverse (get_performance index_closes 30) = PerfList l) ->
   calculate_technique get_performance e = Ok 0) /\
  (forall stock_perf index_perf : ndarray,
     perf_reverse (get_performance close_prices 30) = PerfArray stock_perf ->
     perf_reverse (get_performance index_closes 30) = PerfArray index_perf ->
     (size stock_perf = O \/ size index_perf = O ->
      calculate_technique get_performance e = Ok 0) /\
     (size stock_perf <> O -> size index_perf <> O ->
      (size index_perf <= size stock_perf)%nat ->
      let counter :=
        signed_sum (nditer index_perf) (elements stock_perf) in
      compare_index_with_stock_performance get_performance e = Ok counter /\
      (counter = 3 -> calculate_technique get_performance e = Ok 1) /\
      (counter = -3 -> calculate_technique get_performance e = Ok (-1)) /\
      (counter <> 3 -> counter <> -3 ->
       calculate_technique get_performance e = Ok 0))).
Proof.
  intros Hcs Hci. split.
  - intros Hlist.
    rewrite (technique_of_measure e 0); [reflexivity |].
    exact (compare_without_size e close_prices index_closes Hcs Hci Hlist).
  - intros stock_perf index_perf Hsp Hip.
    pose proof (compare_on_arrays e close_prices index_closes
                  stock_perf index_perf Hcs Hci Hsp Hip) as Hrun.
    split.
    + intros Hempty.
      rewrite (technique_of_measure e 0); [reflexivity |].
      rewrite Hrun. destruct Hempty as [-> | ->]; cbn [Nat.eqb].
      * reflexivity.
      * rewrite orb_true_r. reflexivity.
    + intros Hs Hi Hlen counter.
      assert (Hsum : compare_index_with_stock_performance get_performance e
                     = Ok counter).
      { rewrite Hrun.
        apply Nat.eqb_neq in Hs. apply Nat.eqb_neq in Hi.
        rewrite Hs, Hi. cbn [orb].
        apply (compare_loop_signed_sum
                 (nditer index_perf) (elements stock_perf) [] 0).
        rewrite elements_length. exact Hlen. }
      split; [exact Hsum |].
      rewrite (technique_of_measure e _ Hsum).
      repeat split.
      * intros ->. reflexivity.
      * intros ->. reflexivity.
      * intros H3 Hm3.
        destruct (Z.eqb_spec counter 3); [contradiction |].
        destruct (Z.eqb_spec counter (-3)); [contradiction | reflexivity].
Qed.

End Technique.

Lemma technique_score_by_signed_sum_witness :
  compare_index_with_stock_performance Sample.performance Sample.lagging
    = Ok 3 /\
  calculate_technique Sample.performance Sample.lagging = Ok 1.
Proof.
  destruct (technique_score_by_signed_sum
              Sample.performance Sample.lagging
              (map close Sample.flat_bars) (map close Sample.rising_bars)
              eq_refl eq_refl)
    as [_ Harrays].
  destruct (Harrays
              {| memory := Sample.block_performance
                             90 (map close Sample.flat_bars) 30;
                 backwards := true |}
              {| memory := Sample.block_performance
                             90 (map close Sample.rising_bars) 30;
                 backwards := true |}
              eq_refl eq_refl)
    as [_ Hscore].
  destruct Hscore as (Hsum & Hplus & _).
  - vm_compute. discriminate.
  - vm_compute. discriminate.
  - vm_compute. lia.
  - split.
    + rewrite Hsum. vm_compute. reflexivity.
    + apply Hplus. vm_compute. reflexivity.
Defined.

(** With the benchmark ahead of the stock in each of three blocks, the
    position-by-position signed sum of the two reversed sequences is +3,
    so is the counter of the loop, and the technique sub-score is +1,
    not -1. *)
Lemma technique_three_scores_plus_one :
  signed_sum
    (rev (Sample.block_performance 90 (map close Sample.rising_bars) 30))
    (rev (Sample.block_performance 90 (map close Sample.flat_bars) 30))
    = 3 /\
  compare_index_with_stock_performance Sample.performance Sample.lagging
    = Ok 3 /\
  calculate_technique Sample.performance Sample.lagging = Ok 1 /\
  calculate_technique Sample.performance Sample.lagging <> Ok (-1).
Proof.
  split; [vm_compute; reflexivity |].
  split; [vm_compute; reflexivity |].
  split; [vm_compute; reflexivity |].
  vm_compute. discriminate.
Qed.

(** ** Growth *)

Lemma last_cons_default {A : Type} (l : list A) :
  forall a d : A, last (a :: l) d = last l a.
Proof.
  induction l as [| b l IH]; intros a d; [reflexivity |].
  change (last (a :: b :: l) d) with (last (b :: l) d).
  rewrite (IH b d), (IH b a). reflexivity.
Qed.

(** A loop that overwrites its variable with every value that is not -1
    ends with the last such value. *)
Lemma overwrite_loop_last (g : Z -> Q) (idxs : list Z) :
  forall eps_last : Q,
    fold_left
      (fun (eps_last : Q) (idx : Z) =>
         if negb (Qeq_bool (g idx) (-1)) then g idx else eps_last)
      idxs eps_last
    = last (filter (fun x => negb (Qeq_bool x (-1))) (map g idxs)) eps_last.
Proof.
  induction idxs as [| idx rest IH]; intros eps_last; [reflexivity |].
  cbn [fold_left map filter]. rewrite IH.
  destruct (negb (Qeq_bool (g idx) (-1))); [| reflexivity].
  symmetry. apply last_cons_default.
Qed.

(** [eps_last] is the available sample of the largest quarter offset, the
    oldest one, and 0 when no sample is available. *)
Lemma eps_last_loop_oldest (e : engine) :
  eps_last_loop e
  = last (filter (fun x => negb (Qeq_bool x (-1)))
                 (map (eps_annual_at e) eps_years))
         0%Q.
Proof.
  unfold eps_last_loop. apply (overwrite_loop_last (eps_annual_at e)).
Qed.

(** The score of criterion 13 from the percentage. *)
Lemma growing_of_difference (e : engine) :
  calculate_growing e
  = Ok (if Qgtb (calculate_eps_difference e) 5 then 1
        else if Qltb (calculate_eps_difference e) (-5) then -1
        else 0).
Proof. reflexivity. Qed.

(** A zero EPS estimate gives a percentage of 0 and a sub-score of 0. *)
Lemma growing_zero_estimate (e : engine) :
  (data_attr (the_stock e) "recommendation" "eps" == 0)%Q ->
  calculate_eps_difference e = 0%Q /\ calculate_growing e = Ok 0.
Proof.
  intros Hz.
  assert (Hd : calculate_eps_difference e = 0%Q).
  { unfold calculate_eps_difference, pydiv.
    apply Qeq_bool_iff in Hz. rewrite Hz. reflexivity. }
  split; [exact Hd |].
  rewrite growing_of_difference, Hd. reflexivity.
Qed.

(** C6.  With annual EPS samples 2 (offset 0), 1.5 (offset 4) and 1
    (offset 8) and an EPS estimate of 2.05, the estimate is 2.44% above
    the most recent sample, which is within 5%; the loop ends on the
    sample of offset 8, the percentage is 51.2 and the growth sub-score
    is +1. *)
Theorem growth_compares_with_oldest_sample :
  eps_annual_at Sample.small_growth 0 = 2%Q /\
  eps_annual_at Sample.small_growth 2 = 1%Q /\
  (-5 <= 100 * (2.05 - 2) / 2.05 <= 5)%Q /\
  eps_last_loop Sample.small_growth = 1%Q /\
  (calculate_eps_difference Sample.small_growth == 100 * (2.05 - 1) / 2.05)%Q /\
  calculate_growing Sample.small_growth = Ok 1.
Proof.
  repeat split; vm_compute; try reflexivity; discriminate.
Qed.

(** ** Mood *)

Section Mood.

Variable e : engine.




End Mood.


(** ** Momentum *)

(** C8.  The momentum sub-score is the sum of a term for the rating
    change and of a rest that the price performance alone determines; the
    term is +1 for a rating change above 10, -1 for a rating change below
    10, and 0 only for a rating change of exactly 10. *)
Theorem momentum_rating_change_points (p : npfloat * npfloat) :
  exists rest : Z,
    forall (e : engine) (d : Q),
      calculate_rating_differences_in_percent e = Ok d ->
      calculate_performance e = Ok p ->
      exists c : Z,
        calculate_momentum e = Ok (c + rest) /\
        ((10 < d)%Q -> c = 1) /\
        ((d < 10)%Q -> c = -1) /\
        (c = 0 <-> (d == 10)%Q).
Proof.
  exists
    (let levermann :=
       fold_left
         (fun (levermann : Z) (per_it : npfloat) =>
            if np_gtb per_it (Fin 0.05) then levermann + 1
            else if np_ltb per_it (Fin (-0.05)) then levermann - 1
            else levermann)
         [fst p; snd p] 0 in
     if np_gtb (fst p) (Fin 0.05) &&
        ((np_gtb (Fin 0.05) (snd p) && np_gtb (snd p) (Fin (-0.05)))
         || np_ltb (snd p) (Fin (-0.05)))
     then levermann + 1
     else if np_ltb (fst p) (Fin (-0.05)) &&
             ((np_gtb (Fin 0.05) (snd p) && np_gtb (snd p) (Fin (-0.05)))
              || np_gtb (snd p) (Fin 0.05))
     then levermann - 1
     else levermann).
  intros e d Hd Hp.
  exists (if Qgtb d 10 then 1 else if Qltb d 10 then -1 else 0).
  split.
  - unfold calculate_momentum. rewrite Hd. cbn [bind]. rewrite Hp.
    cbn [bind fold_left]. cbv zeta. f_equal.
    destruct (Qgtb d 10); destruct (Qltb d 10);
      destruct (np_gtb (fst p) (Fin 0.05));
      destruct (np_ltb (fst p) (Fin (-0.05)));
      destruct (np_gtb (snd p) (Fin 0.05));
      destruct (np_ltb (snd p) (Fin (-0.05)));
      destruct (np_gtb (Fin 0.05) (snd p));
      destruct (np_gtb (snd p) (Fin (-0.05)));
      cbn [andb orb]; lia.
  - split; [| split; [| split]].
    + intros H. apply Qgtb_true_iff in H. rewrite H. reflexivity.
    + intros H.
      destruct (Qgtb d 10) eqn:H1; [apply Qgtb_true_iff in H1; lra |].
      apply Qltb_true_iff in H. rewrite H. reflexivity.
    + destruct (Qgtb d 10) eqn:H1; [discriminate |].
      destruct (Qltb d 10) eqn:H2; [discriminate |].
      intros _. apply Qgtb_false_iff in H1. apply Qltb_false_iff in H2.
      lra.
    + intros H.
      destruct (Qgtb d 10) eqn:H1; [apply Qgtb_true_iff in H1; lra |].
      destruct (Qltb d 10) eqn:H2; [apply Qltb_true_iff in H2; lra |].
      reflexivity.
Qed.

Lemma momentum_rating_change_points_witness :
  exists rest c : Z,
    calculate_momentum (Sample.complete 2.2) = Ok (c + rest) /\ c = -1.
Proof.
  destruct (momentum_rating_change_points Sample.complete_performance)
    as [rest Hrest].
  destruct (Hrest (Sample.complete 2.2) Sample.complete_rating_change)
    as (c & Hmomentum & _ & Hbelow & _);
    try (vm_compute; reflexivity).
  exists rest, c. split; [exact Hmomentum |].
  apply Hbelow. vm_compute. reflexivity.
Defined.

(** ** The weighted trend rating *)

(** With every key present the loop ends with the two totals added to the
    running sums. *)
Lemma trendsrating_sums_complete (datas : list distribution) :
  forall nominator denominator : Q,
    forallb entry_complete datas = true ->
    exists n' d' : Q,
      trendsrating_sums datas nominator denominator = Ok (n', d') /\
      (n' == nominator + weighted_total datas)%Q /\
      (d' == denominator + analysts_total datas)%Q.
Proof.
  induction datas as [| data rest IH]; intros nominator denominator Hall.
  - exists nominator, denominator. split; [reflexivity |].
    unfold weighted_total, analysts_total. cbn. split; ring.
  - cbn [forallb] in Hall. apply andb_true_iff in Hall as [Hdata Hrest].
    unfold entry_complete in Hdata.
    destruct (Recommendation data) as [r |] eqn:Hr; [| discriminate].
    destruct (NumberOfAnalysts data) as [n |] eqn:Hn; [| discriminate].
    destruct (IH (nominator + r * n)%Q (denominator + n)%Q Hrest)
      as (n' & d' & Hrun & Hn' & Hd').
    exists n', d'. cbn [trendsrating_sums]. rewrite Hr, Hn. cbn [key bind].
    split; [exact Hrun |].
    unfold weighted_total, analysts_total in *. cbn [map Qsum fold_right].
    unfold entry_weight at 1, entry_analysts at 1. rewrite Hr, Hn.
    split.
    + rewrite Hn'. unfold Qsum. ring.
    + rewrite Hd'. unfold Qsum. ring.
Qed.

(** The first entry that lacks a key stops the loop with a [KeyError]. *)
Lemma trendsrating_sums_incomplete (datas : list distribution) :
  forall nominator denominator : Q,
    forallb entry_complete datas = false ->
    trendsrating_sums datas nominator denominator = Raise KeyError.
Proof.
  induction datas as [| data rest IH]; intros nominator denominator Hsome.
  - discriminate.
  - cbn [forallb] in Hsome. cbn [trendsrating_sums].
    unfold entry_complete in Hsome.
    destruct (Recommendation data) as [r |]; [| reflexivity].
    destruct (NumberOfAnalysts data) as [n |]; [| reflexivity].
    cbn [key bind]. apply IH. exact Hsome.
Qed.

(** The rating of a list whose entries all have both keys. *)
Lemma trendsrating_complete (datas : list distribution) :
  forallb entry_complete datas = true ->
  exists rating : Q,
    calculate_trendsrating datas = Ok rating /\
    ((analysts_total datas == 0)%Q -> rating = 0%Q) /\
    (~ (analysts_total datas == 0)%Q ->
     (rating == weighted_total datas / analysts_total datas)%Q).
Proof.
  intros Hall.
  destruct (trendsrating_sums_complete datas 0 0 Hall)
    as (n' & d' & Hrun & Hn' & Hd').
  rewrite Qplus_0_l in Hn', Hd'.
  unfold calculate_trendsrating. rewrite Hrun. cbn [bind fst snd].
  unfold pydiv. destruct (Qeq_bool d' 0) eqn:Hz.
  - exists 0%Q. split; [reflexivity |]. split; [reflexivity |].
    intros Hne. exfalso. apply Hne.
    apply Qeq_bool_iff in Hz. rewrite <- Hd'. exact Hz.
  - exists (n' / d')%Q. split; [reflexivity |]. split.
    + intros Hzero. exfalso.
      apply Qeq_bool_neq in Hz. apply Hz. rewrite Hd'. exact Hzero.
    + intros _. rewrite Hn', Hd'. reflexivity.
Qed.

(** X1.  On a distribution list whose entries all have both keys,
    [calculate_trendsrating] returns the analyst-weighted mean of the
    ratings, and 0 when the analyst counts add up to zero. *)
Theorem trendsrating_weighted_average (datas : list distribution) :
  forallb entry_complete datas = true ->
  exists rating : Q,
    calculate_trendsrating datas = Ok rating /\
    ((analysts_total datas == 0)%Q -> rating = 0%Q) /\
    (~ (analysts_total datas == 0)%Q ->
     (rating == weighted_total datas / analysts_total datas)%Q).
Proof. exact (trendsrating_complete datas). Qed.

Lemma trendsrating_weighted_average_witness :
  exists rating : Q,
    calculate_trendsrating Sample.latest_distribution = Ok rating /\
    (rating == 4)%Q.
Proof.
  destruct (trendsrating_weighted_average Sample.latest_distribution)
    as (rating & Hrun & _ & Hmean); [reflexivity |].
  exists rating. split; [exact Hrun |].
  rewrite Hmean; [vm_compute; reflexivity | vm_compute; discriminate].
Defined.

(** X2.  [calculate_trendsrating] raises exactly when an entry lacks one
    of its two keys, and what it raises then is a [KeyError]; its own
    division by zero never leaves it. *)
Theorem trendsrating_raises_only_key_error (datas : list distribution) :
  (forallb entry_complete datas = false ->
   calculate_trendsrating datas = Raise KeyError) /\
  (forall x : exn,
     calculate_trendsrating datas = Raise x ->
     x = KeyError /\ forallb entry_complete datas = false).
Proof.
  assert (Hbad : forallb entry_complete datas = false ->
                 calculate_trendsrating datas = Raise KeyError).
  { intros H. unfold calculate_trendsrating.
    rewrite (trendsrating_sums_incomplete datas 0 0 H). reflexivity. }
  split; [exact Hbad |].
  intros x Hx.
  destruct (forallb entry_complete datas) eqn:Hall.
  - destruct (trendsrating_complete datas Hall) as (q & Hq & _).
    rewrite Hq in Hx. discriminate.
  - rewrite (Hbad eq_refl) in Hx. injection Hx as <-. split; reflexivity.
Qed.

Lemma trendsrating_raises_only_key_error_witness :
  calculate_trendsrating Sample.broken_distribution = Raise KeyError.
Proof.
  destruct (trendsrating_raises_only_key_error Sample.broken_distribution)
    as [Hraise _].
  apply Hraise. reflexivity.
Defined.

(** The weighted total lies between the bounds of the ratings times the
    analyst total. *)
Lemma weighted_total_bounds (lo hi : Q) (datas : list distribution) :
  Forall (fun d => exists r n : Q,
            Recommendation d = Some r /\ NumberOfAnalysts d = Some n /\
            (lo <= r)%Q /\ (r <= hi)%Q /\ (0 <= n)%Q) datas ->
  forallb entry_complete datas = true /\
  (lo * analysts_total datas <= weighted_total datas)%Q /\
  (weighted_total datas <= hi * analysts_total datas)%Q.
Proof.
  induction 1 as [| d rest Hd _ IH].
  - split; [reflexivity |]. unfold analysts_total, weighted_total. cbn.
    split; rewrite Qmult_0_r; apply Qle_refl.
  - destruct Hd as (r & n & Hr & Hn & Hlo & Hhi & Hpos).
    destruct IH as (Hall & Hlow & Hhigh).
    split.
    + cbn [forallb]. unfold entry_complete at 1. rewrite Hr, Hn. exact Hall.
    + unfold analysts_total, weighted_total in *.
      cbn [map Qsum fold_right].
      unfold entry_weight at 1 3, entry_analysts at 1 3. rewrite Hr, Hn.
      fold (Qsum (map entry_weight rest)).
      fold (Qsum (map entry_analysts rest)).
      pose proof (Qmult_le_compat_r lo r n Hlo Hpos) as H1.
      pose proof (Qmult_le_compat_r r hi n Hhi Hpos) as H2.
      split.
      * rewrite Qmult_plus_distr_r. apply Qplus_le_compat; assumption.
      * rewrite Qmult_plus_distr_r. apply Qplus_le_compat; assumption.
Qed.

(** X3.  For whole-number ratings between [lo] and [hi] held by whole
    numbers of analysts, none negative and at least one analyst in all,
    the weighted rating lies between [lo] and [hi] too. *)
Theorem trendsrating_within_ratings (lo hi : Z) (datas : list distribution) :
  Forall (fun d => exists r n : Z,
            Recommendation d = Some (inject_Z r) /\
            NumberOfAnalysts d = Some (inject_Z n) /\
            lo <= r <= hi /\ 0 <= n) datas ->
  (0 < analysts_total datas)%Q ->
  exists rating : Q,
    calculate_trendsrating datas = Ok rating /\
    (inject_Z lo <= rating)%Q /\ (rating <= inject_Z hi)%Q.
Proof.
  intros Hin Hpos.
  assert (Hin' : Forall
            (fun d => exists r n : Q,
               Recommendation d = Some r /\ NumberOfAnalysts d = Some n /\
               (inject_Z lo <= r)%Q /\ (r <= inject_Z hi)%Q /\ (0 <= n)%Q)
            datas).
  { apply (Forall_impl _ (P := fun d => exists r n : Z,
                                 Recommendation d = Some (inject_Z r) /\
                                 NumberOfAnalysts d = Some (inject_Z n) /\
                                 lo <= r <= hi /\ 0 <= n));
      [| exact Hin].
    intros d (r & n & Hr & Hn & [Hlo Hhi] & Hn0).
    exists (inject_Z r), (inject_Z n).
    repeat split; try assumption.
    - rewrite Zle_Qle in Hlo. exact Hlo.
    - rewrite Zle_Qle in Hhi. exact Hhi.
    - rewrite Zle_Qle in Hn0. exact Hn0. }
  destruct (weighted_total_bounds (inject_Z lo) (inject_Z hi) datas Hin')
    as (Hall & Hlow & Hhigh).
  destruct (trendsrating_complete datas Hall)
    as (rating & Hrun & _ & Hmean).
  exists rating. split; [exact Hrun |].
  assert (Hne : ~ (analysts_total datas == 0)%Q).
  { intros Hz. rewrite Hz in Hpos. exact (Qlt_irrefl 0 Hpos). }
  rewrite (Hmean Hne). split.
  - apply Qle_shift_div_l; assumption.
  - apply Qle_shift_div_r; assumption.
Qed.

Lemma trendsrating_within_ratings_witness :
  exists rating : Q,
    calculate_trendsrating Sample.latest_distribution = Ok rating /\
    (1 <= rating)%Q /\ (rating <= 5)%Q.
Proof.
  apply (trendsrating_within_ratings 1 5 Sample.latest_distribution).
  - repeat constructor.
    + exists 5, 3. repeat split; try reflexivity; lia.
    + exists 1, 1. repeat split; try reflexivity; lia.
  - vm_compute. reflexivity.
Defined.

(** ** Quality *)

Ltac split_Qgtb :=
  repeat match goal with
         | |- context [Qgtb ?a ?b] =>
             let H := fresh "Hcmp" in
             destruct (Qgtb a b) eqn:H;
             [apply Qgtb_true_iff in H | apply Qgtb_false_iff in H]
         end.

(** The three criteria of the quality sub-score. *)
Lemma quality_points (e : engine) :
  calculate_quality e
  = Ok ((if Qgtb (calculate_roe e) 0.2 then 1
         else if Qltb (calculate_roe e) 0.1 then -1 else 0)
        + (if Qgtb (calculate_ebit_margin e) 0.12 then 1
           else if Qltb (calculate_ebit_margin e) 0.06 then -1 else 0)
        + (if Qgtb (calculate_shareholders_equity_ratio e) 0.25 then 1
           else if Qltb (calculate_shareholders_equity_ratio e) 0.15 then -1
           else 0)).
Proof.
  unfold calculate_quality. cbv zeta.
  destruct (Qgtb (calculate_roe e) 0.2);
    destruct (Qltb (calculate_roe e) 0.1);
    destruct (Qgtb (calculate_ebit_margin e) 0.12);
    destruct (Qltb (calculate_ebit_margin e) 0.06);
    destruct (Qgtb (calculate_shareholders_equity_ratio e) 0.25);
    destruct (Qltb (calculate_shareholders_equity_ratio e) 0.15);
    reflexivity.
Qed.

(** X4.  The quality sub-score always exists and lies between -3 and 3;
    it is 3 exactly when return on equity, EBIT margin and equity ratio
    are above 0.2, 0.12 and 0.25, and -3 exactly when they are below 0.1,
    0.06 and 0.15. *)
Theorem quality_range (e : engine) :
  exists q : Z,
    calculate_quality e = Ok q /\
    -3 <= q <= 3 /\
    (q = 3 <->
     (0.2 < calculate_roe e)%Q /\
     (0.12 < calculate_ebit_margin e)%Q /\
     (0.25 < calculate_shareholders_equity_ratio e)%Q) /\
    (q = -3 <->
     (calculate_roe e < 0.1)%Q /\
     (calculate_ebit_margin e < 0.06)%Q /\
     (calculate_shareholders_equity_ratio e < 0.15)%Q).
Proof.
  eexists. split; [apply quality_points |].
  unfold Qltb.
  change (negb (Qle_bool 0.1 (calculate_roe e)))
    with (Qgtb 0.1 (calculate_roe e)).
  change (negb (Qle_bool 0.06 (calculate_ebit_margin e)))
    with (Qgtb 0.06 (calculate_ebit_margin e)).
  change (negb (Qle_bool 0.15 (calculate_shareholders_equity_ratio e)))
    with (Qgtb 0.15 (calculate_shareholders_equity_ratio e)).
  set (roe := calculate_roe e).
  set (ebit := calculate_ebit_margin e).
  set (ratio := calculate_shareholders_equity_ratio e).
  split_Qgtb;
    (split; [lia |]);
    (split; split;
       [intros Hq | intros (H1 & H2 & H3) | intros Hq | intros (H1 & H2 & H3)]);
    first [reflexivity | repeat split; assumption | exfalso; lia | exfalso; lra
           | repeat split; lra].
Qed.

(** X5.  The guarded ratios are 0 when their divisor is refused, and a
    ratio of 0 is below each lower threshold: zero equity, revenue that
    is not positive or total assets that are not positive each cost a
    point, so the sub-score is then at most 1, and -3 when all three
    happen together. *)
Theorem quality_guards_cost_points (e : engine) :
  ((calculate_shareholders_equity e == 0)%Q ->
   calculate_roe e = 0%Q /\
   exists q : Z, calculate_quality e = Ok q /\ q <= 1) /\
  ((total_revenue_of e <= 0)%Q ->
   calculate_ebit_margin e = 0%Q /\
   exists q : Z, calculate_quality e = Ok q /\ q <= 1) /\
  ((total_assets_of e <= 0)%Q ->
   calculate_shareholders_equity_ratio e = 0%Q /\
   exists q : Z, calculate_quality e = Ok q /\ q <= 1) /\
  ((calculate_shareholders_equity e == 0)%Q ->
   (total_revenue_of e <= 0)%Q ->
   (total_assets_of e <= 0)%Q ->
   calculate_quality e = Ok (-3)).
Proof.
  assert (Hroe : (calculate_shareholders_equity e == 0)%Q ->
                 calculate_roe e = 0%Q).
  { intros H. unfold calculate_roe. apply Qeq_bool_iff in H. rewrite H.
    reflexivity. }
  assert (Hebit : (total_revenue_of e <= 0)%Q ->
                  calculate_ebit_margin e = 0%Q).
  { intros H. unfold calculate_ebit_margin.
    apply Qgtb_false_iff in H. unfold total_revenue_of in H. rewrite H.
    reflexivity. }
  assert (Hratio : (total_assets_of e <= 0)%Q ->
                   calculate_shareholders_equity_ratio e = 0%Q).
  { intros H. unfold calculate_shareholders_equity_ratio.
    apply Qgtb_false_iff in H. unfold total_assets_of in H. rewrite H.
    reflexivity. }
  repeat split.
  - apply Hroe; assumption.
  - eexists. split; [apply quality_points |].
    rewrite (Hroe H). cbn -[calculate_ebit_margin
                              calculate_shareholders_equity_ratio Qgtb Qltb].
    change (Qgtb 0 0.2) with false. change (Qltb 0 0.1) with true. cbn iota.
    destruct (Qgtb (calculate_ebit_margin e) 0.12);
      destruct (Qltb (calculate_ebit_margin e) 0.06);
      destruct (Qgtb (calculate_shareholders_equity_ratio e) 0.25);
      destruct (Qltb (calculate_shareholders_equity_ratio e) 0.15); lia.
  - apply Hebit; assumption.
  - eexists. split; [apply quality_points |].
    rewrite (Hebit H).
    change (Qgtb 0 0.12) with false. change (Qltb 0 0.06) with true.
    cbn iota.
    destruct (Qgtb (calculate_roe e) 0.2);
      destruct (Qltb (calculate_roe e) 0.1);
      destruct (Qgtb (calculate_shareholders_equity_ratio e) 0.25);
      destruct (Qltb (calculate_shareholders_equity_ratio e) 0.15); lia.
  - apply Hratio; assumption.
  - eexists. split; [apply quality_points |].
    rewrite (Hratio H).
    change (Qgtb 0 0.25) with false. change (Qltb 0 0.15) with true.
    cbn iota.
    destruct (Qgtb (calculate_roe e) 0.2);
      destruct (Qltb (calculate_roe e) 0.1);
      destruct (Qgtb (calculate_ebit_margin e) 0.12);
      destruct (Qltb (calculate_ebit_margin e) 0.06); lia.
  - intros H1 H2 H3.
    rewrite quality_points, (Hroe H1), (Hebit H2), (Hratio H3).
    reflexivity.
Qed.

Lemma quality_guards_cost_points_witness :
  calculate_roe Sample.empty_books = 0%Q /\
  calculate_ebit_margin Sample.empty_books = 0%Q /\
  calculate_shareholders_equity_ratio Sample.empty_books = 0%Q /\
  calculate_quality Sample.empty_books = Ok (-3).
Proof.
  destruct (quality_guards_cost_points Sample.empty_books)
    as (Hroe & Hebit & Hratio & Hall).
  assert (He : (calculate_shareholders_equity Sample.empty_books == 0)%Q)
    by (vm_compute; reflexivity).
  assert (Hr : (total_revenue_of Sample.empty_books <= 0)%Q)
    by (vm_compute; discriminate).
  assert (Ha : (total_assets_of Sample.empty_books <= 0)%Q)
    by (vm_compute; discriminate).
  split; [apply (Hroe He) |].
  split; [apply (Hebit Hr) |].
  split; [apply (Hratio Ha) |].
  apply Hall; assumption.
Defined.


(** ** The five-year average EPS *)

(** The loop adds up the samples that are not -1 and counts them. *)
Lemma eps_avg_loop (g : Z -> Q) (idxs : list Z) :
  forall (eps_n : Q) (eps_counter : Z),
    let kept := filter (fun x => negb (Qeq_bool x (-1))) (map g idxs) in
    let acc :=
      fold_left
        (fun (st : Q * Z) (idx : Z) =>
           if negb (Qeq_bool (g idx) (-1))
           then ((fst st + g idx)%Q, snd st + 1)
           else st)
        idxs (eps_n, eps_counter) in
    (fst acc == eps_n + Qsum kept)%Q /\
    snd acc = eps_counter + Z.of_nat (List.length kept).
Proof.
  induction idxs as [| idx rest IH]; intros eps_n eps_counter.
  - cbn. split; [ring | lia].
  - cbn [fold_left map filter].
    destruct (negb (Qeq_bool (g idx) (-1))).
    + destruct (IH (eps_n + g idx)%Q (eps_counter + 1)) as [Hsum Hcount].
      cbn [fst snd]. cbv zeta in *. split.
      * rewrite Hsum. cbn [Qsum fold_right]. unfold Qsum. ring.
      * rewrite Hcount. cbn [List.length]. lia.
    + apply IH.
Qed.

(** X6.  [__calculate_eps_avg] is -1 when none of the five annual samples
    is available, and the arithmetic mean of the available ones
    otherwise. *)
Theorem eps_avg_is_mean (e : engine) :
  (available_eps e = [] -> calculate_eps_avg e = (-1)%Q) /\
  (available_eps e <> [] ->
   (calculate_eps_avg e
    == Qsum (available_eps e)
       / inject_Z (Z.of_nat (List.length (available_eps e))))%Q).
Proof.
  destruct (eps_avg_loop (eps_annual_at e) eps_years 0 0) as [Hsum Hcount].
  cbv zeta in Hsum, Hcount. fold (available_eps e) in Hsum, Hcount.
  unfold calculate_eps_avg. cbv zeta.
  rewrite Hcount. split.
  - intros ->. reflexivity.
  - intros Hne.
    destruct (available_eps e) as [| x rest] eqn:Hav; [congruence |].
    replace (0 + Z.of_nat (List.length (x :: rest)) =? 0) with false.
    2:{ symmetry. apply Z.eqb_neq. cbn [List.length]. lia. }
    rewrite Hsum, Qplus_0_l. reflexivity.
Qed.

Lemma eps_avg_is_mean_witness :
  (calculate_eps_avg (Sample.complete 2.2) == 1.5)%Q /\
  calculate_eps_avg Sample.no_eps_history = (-1)%Q.
Proof.
  split.
  - destruct (eps_avg_is_mean (Sample.complete 2.2)) as [_ Hmean].
    rewrite Hmean; [vm_compute; reflexivity | vm_compute; discriminate].
  - destruct (eps_avg_is_mean Sample.no_eps_history) as [Hnone _].
    apply Hnone. reflexivity.
Defined.

Lemma eps_avg_none (e : engine) :
  available_eps e = [] -> calculate_eps_avg e = (-1)%Q.
Proof.
  intros Hnone.
  destruct (eps_avg_loop (eps_annual_at e) eps_years 0 0) as [_ Hcount].
  cbv zeta in Hcount. fold (available_eps e) in Hcount.
  unfold calculate_eps_avg. cbv zeta. rewrite Hcount, Hnone. reflexivity.
Qed.

(** X7.  Without any annual EPS on record the valuation sub-score is -1
    whatever the EPS estimate, as soon as there is a last close. *)
Theorem valuation_without_eps_history (e : engine)
    (close_prices : list npfloat) :
  available_eps e = [] ->
  close_column (bars e) = Ok close_prices ->
  close_prices <> [] ->
  calculate_rating e = Ok (-1).
Proof.
  intros Hnone Hcol Hne.
  apply (rating_unavailable e close_prices Hcol Hne).
  right. rewrite (eps_avg_none e Hnone). discriminate.
Qed.

Lemma valuation_without_eps_history_witness :
  calculate_rating Sample.no_eps_history = Ok (-1).
Proof.
  apply (valuation_without_eps_history
           Sample.no_eps_history (map close Sample.stock_bars)).
  - reflexivity.
  - reflexivity.
  - discriminate.
Defined.

(** ** Price performance *)

(** [l[i]] for an index inside the sequence. *)
Lemma py_index_in_range {A : Type} (l : list A) (i : Z) (d : A) :
  0 <= i < Z.of_nat (List.length l) ->
  py_index l i = Ok (nth (Z.to_nat i) l d).
Proof.
  intros Hi. unfold py_index. cbv zeta.
  assert (Hneg : (i <? 0) = false) by (apply Z.ltb_ge; lia).
  assert (Hin : (Z.of_nat (List.length l) <=? i) = false)
    by (apply Z.leb_gt; lia).
  rewrite !Hneg, Hin. cbn [orb].
  rewrite nth_error_nth' with (d := d) by lia. reflexivity.
Qed.

(** A division raises exactly on a zero divisor. *)
Lemma float_div_zero (a b : npfloat) :
  is_zero b = true -> float_div a b = Raise ZeroDivisionError.
Proof.
  destruct b as [y | | |]; try discriminate.
  cbn [is_zero float_div]. intros ->. reflexivity.
Qed.

Lemma float_div_nonzero (a b : npfloat) :
  is_zero b = false -> exists r : npfloat, float_div a b = Ok r.
Proof.
  destruct b as [y | | |]; cbn [is_zero float_div].
  - intros ->. eexists; reflexivity.
  - intros _. eexists; reflexivity.
  - intros _. eexists; reflexivity.
  - intros _. eexists; reflexivity.
Qed.

(** X8.  [__calculate_performance] raises a [TypeError] without a bar
    array, an [IndexError] on an empty one and a [ZeroDivisionError]
    when the middle close or the first close is zero; on every other
    array it returns the two quotients less 1. *)
Theorem performance_defined (e : engine) :
  (bars e = None -> calculate_performance e = Raise TypeError) /\
  (bars e = Some [] -> calculate_performance e = Raise IndexError) /\
  (forall rows : list bar,
     bars e = Some rows -> rows <> [] ->
     let closes := map close rows in
     let close_6m := nth (Nat.div2 (List.length closes)) closes NaN in
     let first_close := hd NaN closes in
     let last_close := last closes NaN in
     (is_zero close_6m = true \/ is_zero first_close = true ->
      calculate_performance e = Raise ZeroDivisionError) /\
     (is_zero close_6m = false -> is_zero first_close = false ->
      exists ratio_6m ratio_12m : npfloat,
        float_div last_close close_6m = Ok ratio_6m /\
        float_div last_close first_close = Ok ratio_12m /\
        calculate_performance e
          = Ok (np_sub ratio_6m (Fin 1), np_sub ratio_12m (Fin 1)))).
Proof.
  split; [| split].
  - intros H. unfold calculate_performance. rewrite H. reflexivity.
  - intros H. unfold calculate_performance. rewrite H. reflexivity.
  - intros rows Hb Hne closes close_6m first_close last_close.
    assert (Hlen : (0 < List.length closes)%nat).
    { unfold closes. rewrite length_map.
      destruct rows; [congruence | cbn; lia]. }
    assert (Hcne : closes <> [])
      by (destruct closes; [cbn in Hlen; lia | discriminate]).
    assert (Hmid : py_index closes (Z.of_nat (List.length closes) / 2)
                   = Ok close_6m).
    { rewrite (py_index_in_range closes _ NaN).
      - unfold close_6m. do 2 f_equal.
        rewrite Nat.div2_div. apply Nat2Z.inj.
        rewrite Z2Nat.id by (apply Z.div_pos; lia).
        rewrite Nat2Z.inj_div. reflexivity.
      - split; [apply Z.div_pos; lia |].
        apply Z.div_lt_upper_bound; lia. }
    assert (Hfirst : py_index closes 0 = Ok first_close).
    { rewrite (py_index_in_range closes 0 NaN) by lia.
      unfold first_close. destruct closes; reflexivity. }
    assert (Hrun : calculate_performance e
                   = (ratio_6m <- float_div last_close close_6m ;;
                      ratio_12m <- float_div last_close first_close ;;
                      Ok (np_sub ratio_6m (Fin 1),
                          np_sub ratio_12m (Fin 1)))).
    { unfold calculate_performance. rewrite Hb. cbn [close_column bind].
      fold closes. rewrite Hmid. cbn [bind].
      rewrite (py_index_last closes NaN Hcne). cbn [bind].
      rewrite Hfirst. reflexivity. }
    rewrite Hrun. split.
    + intros Hzero.
      destruct (is_zero close_6m) eqn:H6.
      * rewrite (float_div_zero last_close close_6m H6). reflexivity.
      * destruct (float_div_nonzero last_close close_6m H6) as (r6 & Hr6).
        rewrite Hr6. cbn [bind].
        destruct Hzero as [Hz | Hz]; [discriminate |].
        rewrite (float_div_zero last_close first_close Hz). reflexivity.
    + intros H6 H12.
      destruct (float_div_nonzero last_close close_6m H6) as (r6 & Hr6).
      destruct (float_div_nonzero last_close first_close H12) as (r12 & Hr12).
      exists r6, r12. rewrite Hr6, Hr12. repeat split.
Qed.

Lemma performance_defined_witness :
  (exists ratio_6m ratio_12m : npfloat,
     calculate_performance (Sample.complete 2.2)
       = Ok (np_sub ratio_6m (Fin 1), np_sub ratio_12m (Fin 1))) /\
  calculate_performance Sample.zero_first_close = Raise ZeroDivisionError.
Proof.
  split.
  - destruct (performance_defined (Sample.complete 2.2)) as (_ & _ & Hrun).
    destruct (Hrun Sample.stock_bars) as [_ Hreturns];
      [reflexivity | discriminate |].
    destruct Hreturns as (r6 & r12 & _ & _ & Hp);
      [reflexivity | reflexivity |].
    exists r6, r12. exact Hp.
  - destruct (performance_defined Sample.zero_first_close)
      as (_ & _ & Hrun).
    destruct (Hrun [Sample.mkbar 0 0; Sample.mkbar 11 1;
                    Sample.mkbar 12 2; Sample.mkbar 13 3])
      as [Hraises _]; [reflexivity | discriminate |].
    apply Hraises. right. reflexivity.
Defined.

(** ** Ranges of the sub-scores *)

Ltac split_comparisons :=
  repeat match goal with
         | |- context [Qgtb ?a ?b] =>
             let H := fresh "Hcmp" in
             destruct (Qgtb a b) eqn:H;
             [apply Qgtb_true_iff in H | apply Qgtb_false_iff in H]
         | |- context [Qltb ?a ?b] =>
             let H := fresh "Hcmp" in
             destruct (Qltb a b) eqn:H;
             [apply Qltb_true_iff in H | apply Qltb_false_iff in H]
         end.

Lemma quality_bounds (e : engine) (q : Z) :
  calculate_quality e = Ok q -> -3 <= q <= 3.
Proof.
  unfold calculate_quality. cbv zeta. intros H. apply Ok_inj in H. subst q.
  destruct (Qgtb (calculate_roe e) 0.2);
    destruct (Qltb (calculate_roe e) 0.1);
    destruct (Qgtb (calculate_ebit_margin e) 0.12);
    destruct (Qltb (calculate_ebit_margin e) 0.06);
    destruct (Qgtb (calculate_shareholders_equity_ratio e) 0.25);
    destruct (Qltb (calculate_shareholders_equity_ratio e) 0.15); lia.
Qed.

Lemma mood_bounds (e : engine) (m : Z) :
  calculate_mood e = Ok m -> -2 <= m <= 2.
Proof.
  unfold calculate_mood.
  destruct (trend_distribution (the_stock e) 0) as [d0 | x];
    [| discriminate].
  cbn [bind].
  destruct (calculate_trendsrating d0) as [rating | x]; [| discriminate].
  cbn [bind].
  destruct (calculate_impact_of_quartly_figures e) as [impact | x];
    [| discriminate].
  cbn [bind]. cbv zeta. intros H. apply Ok_inj in H. subst m.
  destruct (Qle_bool 2.5 rating); destruct (Qle_bool rating 1.5);
    destruct (np_gtb impact (Fin 1)); destruct (np_ltb impact (Fin (-1)));
    lia.
Qed.

Lemma momentum_bounds (e : engine) (m : Z) :
  calculate_momentum e = Ok m -> -3 <= m <= 3.
Proof.
  unfold calculate_momentum.
  destruct (calculate_rating_differences_in_percent e) as [d | x];
    [| discriminate].
  cbn [bind].
  destruct (calculate_performance e) as [[p0 p1] | x]; [| discriminate].
  cbn [bind fst snd fold_left]. cbv zeta. intros H. apply Ok_inj in H. subst m.
  destruct (Qgtb d 10); destruct (Qltb d 10);
    destruct p0 as [q0 | | |]; destruct p1 as [q1 | | |];
    unfold np_ltb; cbn [np_gtb];
    split_comparisons; cbn [andb orb];
    first [lia | exfalso; lra].
Qed.

Lemma technique_bounds (get_performance : list npfloat -> Z -> perf_seq)
    (e : engine) (t : Z) :
  calculate_technique get_performance e = Ok t -> -1 <= t <= 1.
Proof.
  unfold calculate_technique.
  destruct (compare_index_with_stock_performance get_performance e)
    as [pm | x]; [| discriminate].
  cbn [bind]. cbv zeta. intros H. apply Ok_inj in H. subst t.
  destruct (pm =? 3); destruct (pm =? -3); lia.
Qed.

Lemma growing_bounds (e : engine) (g : Z) :
  calculate_growing e = Ok g -> -1 <= g <= 1.
Proof.
  rewrite growing_of_difference. intros H. apply Ok_inj in H. subst g.
  destruct (Qgtb (calculate_eps_difference e) 5);
    destruct (Qltb (calculate_eps_difference e) (-5)); lia.
Qed.

(** X9.  The momentum sub-score lies between -3 and 3 (the bonus of
    criterion 11 and a point for the twelve-month performance exclude
    each other), the mood sub-score between -2 and 2, and the technique
    and growth sub-scores between -1 and 1. *)
Theorem sub_score_ranges (get_performance : list npfloat -> Z -> perf_seq)
    (e : engine) :
  (forall m : Z, calculate_momentum e = Ok m -> -3 <= m <= 3) /\
  (forall m : Z, calculate_mood e = Ok m -> -2 <= m <= 2) /\
  (forall t : Z,
     calculate_technique get_performance e = Ok t -> -1 <= t <= 1) /\
  (forall g : Z, calculate_growing e = Ok g -> -1 <= g <= 1).
Proof.
  split; [exact (momentum_bounds e) |].
  split; [exact (mood_bounds e) |].
  split; [exact (technique_bounds get_performance e) |].
  exact (growing_bounds e).
Qed.

(** X10.  A composite that [analyse] computes afresh lies between -11 and
    12, so a buy threshold above 12 rules out BUY and a sell threshold
    below -11 rules out SELL for it. *)
Theorem composite_range (get_performance : list npfloat -> Z -> perf_seq)
    (e : engine) (c : Z) :
  levermann_sum get_performance e = Ok c ->
  -11 <= c <= 12 /\
  exists d : decision,
    analyse get_performance e = Ok (set_calc e c, d) /\
    (12 < buy e -> d <> BUY) /\
    (sell e < -11 -> d <> SELL).
Proof.
  intros Hsum.
  assert (Hrange : -11 <= c <= 12).
  { revert Hsum. unfold levermann_sum.
    destruct (calculate_quality e) as [q | x] eqn:Hq; [| discriminate].
    destruct (calculate_rating e) as [v | x] eqn:Hv; [| discriminate].
    destruct (calculate_mood e) as [m | x] eqn:Hm; [| discriminate].
    destruct (calculate_momentum e) as [mo | x] eqn:Hmo; [| discriminate].
    destruct (calculate_technique get_performance e) as [t | x] eqn:Ht;
      [| discriminate].
    destruct (calculate_growing e) as [g | x] eqn:Hg; [| discriminate].
    cbn [bind]. intros H. apply Ok_inj in H. subst c.
    pose proof (quality_bounds e q Hq).
    pose proof (rating_values e v Hv).
    pose proof (mood_bounds e m Hm).
    pose proof (momentum_bounds e mo Hmo).
    pose proof (technique_bounds get_performance e t Ht).
    pose proof (growing_bounds e g Hg).
    lia. }
  split; [exact Hrange |].
  exists (classify c (buy e) (sell e)).
  split; [unfold analyse; rewrite Hsum; reflexivity |].
  split; intros Hthr Hd.
  - apply classify_buy_inv in Hd. lia.
  - apply classify_sell_inv in Hd. lia.
Qed.

Lemma sub_score_ranges_witness :
  -3 <= 1 <= 3 /\ -2 <= 0 <= 2 /\ -1 <= 0 <= 1 /\ -1 <= 1 <= 1.
Proof.
  destruct (sub_score_ranges Sample.performance (Sample.complete 2.2))
    as (Hmo & Hm & Ht & Hg).
  split; [apply Hmo; vm_compute; reflexivity |].
  split; [apply Hm; vm_compute; reflexivity |].
  split; [apply Ht; vm_compute; reflexivity |].
  apply Hg; vm_compute; reflexivity.
Defined.

Lemma composite_range_witness :
  -11 <= 6 <= 12 /\
  exists d : decision,
    analyse Sample.performance (Sample.complete 2.2)
      = Ok (set_calc (Sample.complete 2.2) 6, d) /\
    (12 < buy (Sample.complete 2.2) -> d <> BUY) /\
    (sell (Sample.complete 2.2) < -11 -> d <> SELL).
Proof.
  apply (composite_range Sample.performance (Sample.complete 2.2) 6).
  vm_compute. reflexivity.
Defined.

(** ** Repeated and failed evaluations *)

(** The calculators do not read the cached composite. *)
Lemma levermann_sum_set_calc (get_performance : list npfloat -> Z -> perf_seq)
    (e : engine) (c : Z) :
  levermann_sum get_performance (set_calc e c)
  = levermann_sum get_performance e.
Proof. reflexivity. Qed.

(** X11.  Calling [analyse] again on the filter it left behind changes
    nothing: the same filter, the same cached composite and the same
    decision come back. *)
Theorem analyse_idempotent (get_performance : list npfloat -> Z -> perf_seq)
    (e after : engine) (d : decision) :
  analyse get_performance e = Ok (after, d) ->
  analyse get_performance after = Ok (after, d) /\
  get_calculation after = calc after /\
  (forall c : Z,
     levermann_sum get_performance e = Ok c -> get_calculation after = c).
Proof.
  unfold analyse.
  destruct (levermann_sum get_performance e) as [c | x] eqn:Hsum.
  - cbn [bind]. intros H. apply Ok_inj in H. injection H as <- <-.
    split; [| split; [reflexivity |]].
    + rewrite levermann_sum_set_calc, Hsum. reflexivity.
    + intros c' H. apply Ok_inj in H. subst c'. reflexivity.
  - destruct (caught x) eqn:Hx; [| discriminate].
    cbn [bind]. intros H. apply Ok_inj in H. injection H as <- <-.
    split; [| split; [reflexivity | discriminate]].
    rewrite Hsum, Hx. reflexivity.
Qed.

Lemma analyse_idempotent_witness :
  analyse Sample.performance (set_calc (Sample.complete 2.2) 6)
    = Ok (set_calc (Sample.complete 2.2) 6, BUY) /\
  get_calculation (set_calc (Sample.complete 2.2) 6) = 6.
Proof.
  destruct (analyse_idempotent
              Sample.performance (Sample.complete 2.2)
              (set_calc (Sample.complete 2.2) 6) BUY)
    as (Hagain & Hget & _).
  - vm_compute. reflexivity.
  - split; [exact Hagain | exact Hget].
Defined.

(** What the helpers can raise. *)
Lemma py_index_raises {A : Type} (l : list A) (i : Z) (x : exn) :
  py_index l i = Raise x -> x = IndexError.
Proof.
  unfold py_index. cbv zeta.
  destruct ((_ <? 0) || _); [intros [= <-]; reflexivity |].
  destruct (nth_error l _); [discriminate | intros [= <-]; reflexivity].
Qed.

Lemma trend_distribution_raises (s : stock) (k : Z) (x : exn) :
  trend_distribution s k = Raise x -> caught x = true.
Proof.
  unfold trend_distribution.
  destruct (recommendation_data s) as [r |]; [| intros [= <-]; reflexivity].
  destruct (trends r) as [ts |]; [| intros [= <-]; reflexivity].
  cbn [key bind].
  destruct (py_index ts k) as [t | y] eqn:Ht.
  - cbn [bind]. destruct (distributionList t);
      [discriminate | intros [= <-]; reflexivity].
  - cbn [bind]. intros [= <-].
    rewrite (py_index_raises ts k y Ht). reflexivity.
Qed.

Lemma trendsrating_raises (datas : list distribution) (x : exn) :
  calculate_trendsrating datas = Raise x -> x = KeyError.
Proof.
  intros Hx.
  destruct (forallb entry_complete datas) eqn:Hall.
  - destruct (trendsrating_sums_complete datas 0 0 Hall)
      as (n' & d' & Hrun & _).
    revert Hx. unfold calculate_trendsrating. rewrite Hrun.
    cbn [bind fst snd]. unfold pydiv.
    destruct (Qeq_bool d' 0); discriminate.
  - revert Hx. unfold calculate_trendsrating.
    rewrite (trendsrating_sums_incomplete datas 0 0 Hall).
    intros [= <-]. reflexivity.
Qed.

Lemma close_column_raises (b : option (list bar)) (x : exn) :
  close_column b = Raise x -> x = TypeError.
Proof. destruct b; [discriminate | intros [= <-]; reflexivity]. Qed.

Lemma rating_raises (e : engine) (x : exn) :
  calculate_rating e = Raise x -> caught x = true.
Proof.
  unfold calculate_rating, calculate_price_earnings_ratios.
  destruct (close_column (bars e)) as [cs | y] eqn:Hc; cbn [bind];
    [| intros [= <-]; rewrite (close_column_raises _ _ Hc); reflexivity].
  destruct (py_index cs (-1)) as [lc | y] eqn:Hl; cbn [bind].
  - destruct (Qgtb (data_attr (the_stock e) "recommendation" "eps") 0)
      eqn:Hest; [| discriminate].
    destruct (Qgtb (calculate_eps_avg e) 0) eqn:Havg; [| discriminate].
    cbn [andb].
    apply Qgtb_true_iff in Hest. apply Qgtb_true_iff in Havg.
    destruct (float_div_positive lc _ Hest) as (per & Hper & _).
    destruct (float_div_positive lc _ Havg) as (per_5 & Hper_5 & _).
    rewrite Hper. cbn [bind]. rewrite Hper_5. discriminate.
  - intros [= <-]. rewrite (py_index_raises _ _ _ Hl). reflexivity.
Qed.

(** ** The bar before the report date *)

Lemma last_default_irrelevant {A : Type} (l : list A) (a b : A) :
  l <> [] -> last l a = last l b.
Proof.
  induction l as [| x [| y l] IH]; intros Hne;
    [congruence | reflexivity |].
  change (last (y :: l) a = last (y :: l) b). apply IH. discriminate.
Qed.

Lemma np_where_lt_nil (ts : list Z) (d : Z) :
  forall i : Z,
    np_where_lt ts d i = [] <-> Forall (fun t => d <= t) ts.
Proof.
  induction ts as [| t rest IH]; intros i.
  - split; [constructor | reflexivity].
  - cbn [np_where_lt]. destruct (Z.ltb_spec t d) as [Hlt | Hge].
    + split; [discriminate |].
      intros H. inversion H; subst. lia.
    + rewrite IH. split.
      * intros H. constructor; assumption.
      * intros H. inversion H; assumption.
Qed.

(** The last position that [np.where] reports holds a timestamp below the
    date, and no later position does. *)
Lemma np_where_lt_last (ts : list Z) (d : Z) :
  forall i : Z,
    np_where_lt ts d i <> [] ->
    exists (k : nat) (t : Z),
      last (np_where_lt ts d i) 0 = i + Z.of_nat k /\
      nth_error ts k = Some t /\ t < d /\
      forall (k' : nat) (t' : Z),
        (k < k')%nat -> nth_error ts k' = Some t' -> d <= t'.
Proof.
  induction ts as [| t rest IH]; intros i Hne; [contradiction |].
  cbn [np_where_lt] in *.
  destruct (np_where_lt rest d (i + 1)) as [| w ws] eqn:Hw.
  - destruct (Z.ltb_spec t d) as [Hlt | Hge]; [| contradiction].
    exists O, t. cbn [last nth_error]. repeat split; [lia | exact Hlt |].
    intros k' t' Hk' Hnth.
    destruct k' as [| k'']; [lia |]. cbn [nth_error] in Hnth.
    apply (proj1 (np_where_lt_nil rest d (i + 1))) in Hw.
    rewrite Forall_forall in Hw. apply Hw.
    exact (nth_error_In rest k'' Hnth).
  - destruct (IH (i + 1)) as (k & t0 & Hlast & Hnth & Hlt & Hlater).
    { rewrite Hw. discriminate. }
    exists (S k), t0. rewrite Hw in Hlast.
    repeat split.
    + destruct (t <? d).
      * rewrite last_cons_default.
        rewrite (last_default_irrelevant (w :: ws) i 0) by discriminate.
        rewrite Hlast. lia.
      * rewrite Hlast. lia.
    + exact Hnth.
    + exact Hlt.
    + intros k' t' Hk' Hnth'.
      destruct k' as [| k'']; [lia |]. cbn [nth_error] in Hnth'.
      apply (Hlater k'' t'); [lia | exact Hnth'].
Qed.

Lemma last_index_before_none (rows : list bar) (d : Z) :
  Forall (fun r => d <= timestamp r) rows ->
  last_index_before (Some rows) d = Raise IndexError.
Proof.
  intros Hall. unfold last_index_before. cbn [time_column bind].
  replace (np_where_lt (map timestamp rows) d 0) with (@nil Z);
    [reflexivity |].
  symmetry. apply np_where_lt_nil.
  rewrite Forall_map. exact Hall.
Qed.

Lemma last_index_before_some (rows : list bar) (d : Z) :
  ~ Forall (fun r => d <= timestamp r) rows ->
  exists (k : nat) (r : bar),
    last_index_before (Some rows) d = Ok (Z.of_nat k) /\
    nth_error rows k = Some r /\ timestamp r < d /\
    forall (k' : nat) (r' : bar),
      (k < k')%nat -> nth_error rows k' = Some r' -> d <= timestamp r'.
Proof.
  intros Hnot.
  assert (Hne : np_where_lt (map timestamp rows) d 0 <> []).
  { intros Hnil. apply Hnot.
    apply (proj1 (np_where_lt_nil _ d 0)) in Hnil.
    rewrite Forall_map in Hnil. exact Hnil. }
  destruct (np_where_lt_last (map timestamp rows) d 0 Hne)
    as (k & t & Hlast & Hnth & Hlt & Hlater).
  rewrite nth_error_map in Hnth.
  destruct (nth_error rows k) as [r |] eqn:Hr; [| discriminate].
  cbn in Hnth. injection Hnth as <-.
  exists k, r. split; [| split; [exact Hr | split; [exact Hlt |]]].
  - unfold last_index_before. cbn [time_column bind].
    rewrite (py_index_last _ 0 Hne), Hlast. reflexivity.
  - intros k' r' Hk' Hr'.
    apply (Hlater k' (timestamp r') Hk').
    rewrite nth_error_map, Hr'. reflexivity.
Qed.

(** X13.  [np.where(column < date)[0][-1]] raises an [IndexError] exactly
    when no bar is dated before the report date; otherwise it is the
    position of a bar dated before it such that no later row is. *)
Theorem last_index_before_spec (rows : list bar) (d : Z) :
  (last_index_before (Some rows) d = Raise IndexError <->
   Forall (fun r => d <= timestamp r) rows) /\
  (forall idx : Z,
     last_index_before (Some rows) d = Ok idx ->
     exists (k : nat) (r : bar),
       idx = Z.of_nat k /\
       nth_error rows k = Some r /\ timestamp r < d /\
       forall (k' : nat) (r' : bar),
         (k < k')%nat -> nth_error rows k' = Some r' -> d <= timestamp r').
Proof.
  destruct (Forall_dec (fun r => d <= timestamp r)
                       (fun r => Z_le_dec d (timestamp r)) rows)
    as [Hall | Hnot].
  - pose proof (last_index_before_none rows d Hall) as Hraise.
    split; [split; [intros _; exact Hall | intros _; exact Hraise] |].
    intros idx Hidx. rewrite Hraise in Hidx. discriminate.
  - destruct (last_index_before_some rows d Hnot)
      as (k & r & Hrun & Hnth & Hlt & Hlater).
    split.
    + split; [rewrite Hrun; discriminate | contradiction].
    + intros idx Hidx. rewrite Hrun in Hidx. apply Ok_inj in Hidx.
      exists k, r. repeat split; [symmetry; exact Hidx | exact Hnth
                                 | exact Hlt | exact Hlater].
Qed.

Lemma last_index_before_spec_witness :
  exists (k : nat) (r : bar),
    2 = Z.of_nat k /\
    nth_error Sample.stock_bars k = Some r /\ timestamp r < 3 /\
    forall (k' : nat) (r' : bar),
      (k < k')%nat -> nth_error Sample.stock_bars k' = Some r' ->
      3 <= timestamp r'.
Proof.
  destruct (last_index_before_spec Sample.stock_bars 3) as [_ Hfound].
  apply Hfound. vm_compute. reflexivity.
Defined.

(** [l[i]] raises beyond the end. *)
Lemma py_index_beyond {A : Type} (l : list A) (i : Z) :
  Z.of_nat (List.length l) <= i -> py_index l i = Raise IndexError.
Proof.
  intros Hi. unfold py_index. cbv zeta.
  assert (Hneg : (i <? 0) = false) by (apply Z.ltb_ge; lia).
  assert (Hout : (Z.of_nat (List.length l) <=? i) = true)
    by (apply Z.leb_le; lia).
  rewrite !Hneg, Hout. reflexivity.
Qed.

Lemma py_index_nth_error {A : Type} (l : list A) (k : nat) (a : A) :
  nth_error l k = Some a -> py_index l (Z.of_nat k) = Ok a.
Proof.
  intros Hnth.
  assert (Hk : (k < List.length l)%nat)
    by (apply nth_error_Some; rewrite Hnth; discriminate).
  unfold py_index. cbv zeta.
  assert (Hneg : (Z.of_nat k <? 0) = false) by (apply Z.ltb_ge; lia).
  assert (Hin : (Z.of_nat (List.length l) <=? Z.of_nat k) = false)
    by (apply Z.leb_gt; lia).
  rewrite !Hneg, Hin. cbn [orb]. rewrite Nat2Z.id, Hnth. reflexivity.
Qed.

(** X14.  [bars[[idx, idx - 1]]] pairs the row at [idx] with the row
    before it; at [idx = 0] the index [-1] wraps around and the second
    row is the last row of the array. *)
Theorem rows_at_previous (rows : list bar) (k : nat) (r : bar) :
  nth_error rows k = Some r ->
  exists prev : bar,
    rows_at (Some rows) (Z.of_nat k) = Ok (r, prev) /\
    (k = O -> prev = last rows r) /\
    (forall k' : nat, k = S k' -> nth_error rows k' = Some prev).
Proof.
  intros Hnth. unfold rows_at.
  rewrite (py_index_nth_error rows k r Hnth). cbn [bind].
  destruct k as [| k'].
  - assert (Hne : rows <> []) by (destruct rows; [discriminate | discriminate]).
    change (Z.of_nat 0 - 1) with (-1).
    rewrite (py_index_last rows r Hne). cbn [bind].
    exists (last rows r). split; [reflexivity |].
    split; [reflexivity | discriminate].
  - assert (Hk : (k' < List.length rows)%nat).
    { assert (S k' < List.length rows)%nat
        by (apply nth_error_Some; rewrite Hnth; discriminate).
      lia. }
    destruct (nth_error rows k') as [p |] eqn:Hp.
    2:{ apply nth_error_None in Hp. lia. }
    replace (Z.of_nat (S k') - 1) with (Z.of_nat k') by lia.
    rewrite (py_index_nth_error rows k' p Hp). cbn [bind].
    exists p. split; [reflexivity |].
    split; [discriminate |].
    intros k'' [= <-]. exact Hp.
Qed.

Lemma rows_at_previous_witness :
  exists prev : bar,
    rows_at (Some Sample.stock_bars) 0 = Ok (Sample.mkbar 10 0, prev) /\
    prev = Sample.mkbar 13 3.
Proof.
  destruct (rows_at_previous Sample.stock_bars 0 (Sample.mkbar 10 0))
    as (prev & Hrun & Hwrap & _); [reflexivity |].
  exists prev. split; [exact Hrun | apply Hwrap; reflexivity].
Defined.

Lemma rows_at_found (rows : list bar) (k : nat) (r : bar) :
  nth_error rows k = Some r ->
  exists prev : bar, rows_at (Some rows) (Z.of_nat k) = Ok (r, prev).
Proof.
  intros Hnth. unfold rows_at.
  rewrite (py_index_nth_error rows k r Hnth). cbn [bind].
  destruct k as [| k'].
  - assert (Hne : rows <> []) by (destruct rows; discriminate).
    change (Z.of_nat 0 - 1) with (-1).
    rewrite (py_index_last rows r Hne). eexists; reflexivity.
  - destruct (nth_error rows k') as [p |] eqn:Hp.
    + replace (Z.of_nat (S k') - 1) with (Z.of_nat k') by lia.
      rewrite (py_index_nth_error rows k' p Hp). eexists; reflexivity.
    + apply nth_error_None in Hp.
      assert (S k' < List.length rows)%nat
        by (apply nth_error_Some; rewrite Hnth; discriminate).
      lia.
Qed.

Section Impact.

Variable e : engine.
Variables (first : income_record) (others : list income_record).
Variable report_day : Z.
Variables stock_rows index_rows : list bar.

Hypothesis Hincome : income_data (the_stock e) = first :: others.
Hypothesis Hdate : reportDate first = ReportDate report_day.
Hypothesis Hbars : bars e = Some stock_rows.
Hypothesis Hindex : index_bars e = Some index_rows.

Lemma impact_no_earlier_bar :
  Forall (fun r => report_day <= timestamp r) index_rows \/
  Forall (fun r => report_day <= timestamp r) stock_rows ->
  calculate_impact_of_quartly_figures e = Raise IndexError.
Proof.
  intros Hnone. unfold calculate_impact_of_quartly_figures.
  rewrite Hincome, Hdate, Hbars, Hindex.
  destruct (Forall_dec (fun r => report_day <= timestamp r)
                       (fun r => Z_le_dec report_day (timestamp r))
                       index_rows) as [Hi | Hi].
  - rewrite (last_index_before_none index_rows report_day Hi). reflexivity.
  - destruct (last_index_before_some index_rows report_day Hi)
      as (k & r & Hrun & _).
    rewrite Hrun. cbn [bind].
    destruct Hnone as [Hall | Hall]; [contradiction |].
    rewrite (last_index_before_none stock_rows report_day Hall).
    reflexivity.
Qed.

(** With an earlier bar in each array the two pairs of rows are found,
    and the impact is the difference of two quotients whose divisors are
    the closes of the second rows. *)
Lemma impact_earlier_bars :
  ~ Forall (fun r => report_day <= timestamp r) index_rows ->
  ~ Forall (fun r => report_day <= timestamp r) stock_rows ->
  exists (idx_index idx_stock : Z) (vals_index vals_stock : bar * bar),
    last_index_before (Some index_rows) report_day = Ok idx_index /\
    last_index_before (Some stock_rows) report_day = Ok idx_stock /\
    rows_at (Some index_rows) idx_index = Ok vals_index /\
    rows_at (Some stock_rows) idx_stock = Ok vals_stock /\
    calculate_impact_of_quartly_figures e
    = (perf_quarterly_index_prc <-
         float_div
           (np_mul (Fin 100)
                   (np_sub (close (snd vals_index)) (close (fst vals_index))))
           (close (snd vals_index)) ;;
       perf_quarterly_stock_prc <-
         float_div
           (np_mul (Fin 100)
                   (np_sub (close (snd vals_stock)) (close (fst vals_stock))))
           (close (snd vals_stock)) ;;
       Ok (np_sub perf_quarterly_stock_prc perf_quarterly_index_prc)).
Proof.
  intros Hi Hs.
  destruct (last_index_before_some index_rows report_day Hi)
    as (ki & ri & Hruni & Hnthi & _).
  destruct (last_index_before_some stock_rows report_day Hs)
    as (ks & rs & Hruns & Hnths & _).
  destruct (rows_at_found stock_rows ks rs Hnths) as (ps & Hps).
  destruct (rows_at_found index_rows ki ri Hnthi) as (pi & Hpi).
  exists (Z.of_nat ki), (Z.of_nat ks), (ri, pi), (rs, ps).
  repeat split; try assumption.
  unfold calculate_impact_of_quartly_figures.
  rewrite Hincome, Hdate, Hbars, Hindex, Hruni. cbn [bind].
  rewrite Hruns. cbn [bind]. rewrite Hps. cbn [bind]. rewrite Hpi.
  reflexivity.
Qed.

(** X15.  With a dated income record and both bar arrays at hand, the
    quarterly impact raises an [IndexError] when the stock or the index
    array has no bar dated before the report date, and [analyse] then
    decides on the cached composite.  When each array has one, the
    impact raises a [ZeroDivisionError] if the close of the row before
    it, the divisor, is zero in either array, and returns a number
    otherwise. *)
Theorem impact_needs_earlier_bars
    (get_performance : list npfloat -> Z -> perf_seq) :
  (Forall (fun r => report_day <= timestamp r) index_rows \/
   Forall (fun r => report_day <= timestamp r) stock_rows ->
   calculate_impact_of_quartly_figures e = Raise IndexError /\
   exists d : decision,
     analyse get_performance e = Ok (e, d) /\
     (buy e <= calc e -> d = BUY) /\
     (calc e < buy e -> calc e <= sell e -> d = SELL) /\
     (calc e < buy e -> sell e < calc e -> d = HOLD)) /\
  (~ Forall (fun r => report_day <= timestamp r) index_rows ->
   ~ Forall (fun r => report_day <= timestamp r) stock_rows ->
   exists (idx_index idx_stock : Z) (vals_index vals_stock : bar * bar),
     last_index_before (Some index_rows) report_day = Ok idx_index /\
     last_index_before (Some stock_rows) report_day = Ok idx_stock /\
     rows_at (Some index_rows) idx_index = Ok vals_index /\
     rows_at (Some stock_rows) idx_stock = Ok vals_stock /\
     (is_zero (close (snd vals_index)) = true \/
      is_zero (close (snd vals_stock)) = true ->
      calculate_impact_of_quartly_figures e = Raise ZeroDivisionError) /\
     (is_zero (close (snd vals_index)) = false ->
      is_zero (close (snd vals_stock)) = false ->
      exists impact : npfloat,
        calculate_impact_of_quartly_figures e = Ok impact)).
Proof.
  split.
  - intros Hnone.
    pose proof (impact_no_earlier_bar Hnone) as Himpact.
    split; [exact Himpact |].
    assert (Hmood : exists x : exn,
               calculate_mood e = Raise x /\ caught x = true).
    { unfold calculate_mood.
      destruct (trend_distribution (the_stock e) 0) as [d0 | x] eqn:Hd.
      - cbn [bind].
        destruct (calculate_trendsrating d0) as [rating | x] eqn:Hr.
        + cbn [bind]. rewrite Himpact. exists IndexError.
          split; reflexivity.
        + exists x. split; [reflexivity |].
          rewrite (trendsrating_raises d0 x Hr). reflexivity.
      - exists x. split; [reflexivity |].
        exact (trend_distribution_raises _ _ x Hd). }
    destruct Hmood as (x & Hmood & Hx).
    assert (Hsum : exists y : exn,
               levermann_sum get_performance e = Raise y /\
               caught y = true).
    { unfold levermann_sum. rewrite quality_points. cbn [bind].
      destruct (calculate_rating e) as [v | y] eqn:Hv; cbn [bind].
      - rewrite Hmood. exists x. split; [reflexivity | exact Hx].
      - exists y. split; [reflexivity | exact (rating_raises e y Hv)]. }
    destruct Hsum as (y & Hsum & Hy).
    exact (analyse_caught get_performance e y Hsum Hy).
  - intros Hi Hs.
    destruct (impact_earlier_bars Hi Hs)
      as (ii & si & vi & vs & Hii & Hsi & Hvi & Hvs & Hrun).
    exists ii, si, vi, vs. repeat split; try assumption.
    + intros Hzero. rewrite Hrun.
      destruct (is_zero (close (snd vi))) eqn:Hzi.
      * rewrite (float_div_zero _ _ Hzi). reflexivity.
      * destruct (float_div_nonzero
                    (np_mul (Fin 100)
                            (np_sub (close (snd vi)) (close (fst vi))))
                    (close (snd vi)) Hzi) as (ri & Hri).
        rewrite Hri. cbn [bind].
        destruct Hzero as [Hz | Hz]; [discriminate |].
        rewrite (float_div_zero _ _ Hz). reflexivity.
    + intros Hzi Hzs. rewrite Hrun.
      destruct (float_div_nonzero
                  (np_mul (Fin 100)
                          (np_sub (close (snd vi)) (close (fst vi))))
                  (close (snd vi)) Hzi) as (ri & Hri).
      destruct (float_div_nonzero
                  (np_mul (Fin 100)
                          (np_sub (close (snd vs)) (close (fst vs))))
                  (close (snd vs)) Hzs) as (rs & Hrs).
      rewrite Hri. cbn [bind]. rewrite Hrs. cbn [bind].
      eexists; reflexivity.
Qed.

End Impact.

Lemma impact_needs_earlier_bars_witness :
  (exists impact : npfloat,
     calculate_impact_of_quartly_figures (Sample.complete 2.2) = Ok impact) /\
  calculate_impact_of_quartly_figures Sample.zero_previous_close
    = Raise ZeroDivisionError /\
  calculate_impact_of_quartly_figures Sample.early_report
    = Raise IndexError /\
  exists d : decision,
    analyse Sample.performance Sample.early_report
      = Ok (Sample.early_report, d) /\
    d = HOLD.
Proof.
  assert (Hearlier : forall rows : list bar,
             (exists r rest, rows = r :: rest /\ timestamp r < 3) ->
             ~ Forall (fun r => 3 <= timestamp r) rows).
  { intros rows (r & rest & -> & Hlt) Hall.
    inversion Hall as [| ? ? Hfirst _]. lia. }
  split; [| split].
  - destruct (impact_needs_earlier_bars
                (Sample.complete 2.2) {| reportDate := ReportDate 3 |} []
                3 Sample.stock_bars Sample.benchmark_bars
                eq_refl eq_refl eq_refl eq_refl Sample.performance)
      as [_ Hfound].
    destruct Hfound as (ii & si & vi & vs & Hii & Hsi & Hvi & Hvs & _ & Hok).
    + apply Hearlier. eexists; eexists. split; [reflexivity |].
      vm_compute. reflexivity.
    + apply Hearlier. eexists; eexists. split; [reflexivity |].
      vm_compute. reflexivity.
    + apply Ok_inj in Hii. apply Ok_inj in Hsi. subst ii si.
      apply Ok_inj in Hvi. apply Ok_inj in Hvs. subst vi vs.
      apply Hok; reflexivity.
  - destruct (impact_needs_earlier_bars
                Sample.zero_previous_close
                {| reportDate := ReportDate 3 |} []
                3 [Sample.mkbar 10 0; Sample.mkbar 0 1;
                   Sample.mkbar 12 2; Sample.mkbar 13 3]
                Sample.benchmark_bars
                eq_refl eq_refl eq_refl eq_refl Sample.performance)
      as [_ Hfound].
    destruct Hfound as (ii & si & vi & vs & Hii & Hsi & Hvi & Hvs & Hzero & _).
    + apply Hearlier. eexists; eexists. split; [reflexivity |].
      vm_compute. reflexivity.
    + apply Hearlier. eexists; eexists. split; [reflexivity |].
      vm_compute. reflexivity.
    + apply Ok_inj in Hii. apply Ok_inj in Hsi. subst ii si.
      apply Ok_inj in Hvi. apply Ok_inj in Hvs. subst vi vs.
      apply Hzero. right. reflexivity.
  - destruct (impact_needs_earlier_bars
                Sample.early_report {| reportDate := ReportDate 0 |} []
                0 Sample.stock_bars Sample.benchmark_bars
                eq_refl eq_refl eq_refl eq_refl Sample.performance)
      as [Hraises _].
    destruct Hraises as (Himpact & d & Hrun & _ & _ & Hhold).
    + left. repeat constructor; vm_compute; discriminate.
    + split; [exact Himpact |].
      exists d. split; [exact Hrun |].
      apply Hhold; vm_compute; reflexivity.
Defined.

(** ** Technique: how many positions it takes *)

(** The signed sum of [n] comparisons is [n] less twice the number of
    positions where the index is not ahead. *)
Lemma signed_sum_parity (index_perf : list npfloat) :
  forall stock_perf : list npfloat,
    (List.length index_perf <= List.length stock_perf)%nat ->
    exists k : Z,
      0 <= k <= Z.of_nat (List.length index_perf) /\
      signed_sum index_perf stock_perf
      = Z.of_nat (List.length index_perf) - 2 * k.
Proof.
  induction index_perf as [| i rest IH]; intros sp Hlen.
  - exists 0. cbn. lia.
  - destruct sp as [| s sr]; [cbn in Hlen; lia |].
    cbn [List.length] in Hlen.
    destruct (IH sr ltac:(lia)) as (k & Hk & Hsum).
    cbn [signed_sum List.length]. rewrite Hsum.
    destruct (np_gtb i s).
    + exists k. lia.
    + exists (k + 1). lia.
Qed.

Section TechniquePositions.

Variable get_performance : list npfloat -> Z -> perf_seq.
Variable e : engine.
Variables close_prices index_closes : list npfloat.
Variables stock_perf index_perf : ndarray.

Hypothesis Hcloses : close_column (bars e) = Ok close_prices.
Hypothesis Hindex : close_column (index_bars e) = Ok index_closes.
Hypothesis Hstock_perf :
  perf_reverse (get_performance close_prices 30) = PerfArray stock_perf.
Hypothesis Hindex_perf :
  perf_reverse (get_performance index_closes 30) = PerfArray index_perf.

Lemma compare_run :
  compare_index_with_stock_performance get_performance e
  = if Nat.eqb (size stock_perf) 0 || Nat.eqb (size index_perf) 0
    then Ok 0
    else compare_loop (nditer index_perf) (elements stock_perf) 0 0.
Proof.
  exact (compare_on_arrays get_performance e close_prices index_closes
           stock_perf index_perf Hcloses Hindex Hstock_perf Hindex_perf).
Qed.

(** X16.  A technique sub-score other than 0 takes an odd number of
    index positions, at least three, and a stock sequence at least as
    long: with one or two positions, or an even number of them, the
    counter cannot be +3 or -3. *)
Theorem technique_needs_three_positions (t : Z) :
  calculate_technique get_performance e = Ok t ->
  t <> 0 ->
  (3 <= size index_perf <= size stock_perf)%nat /\
  Nat.odd (size index_perf) = true.
Proof.
  unfold calculate_technique. rewrite compare_run.
  destruct (Nat.eqb (size stock_perf) 0
            || Nat.eqb (size index_perf) 0) eqn:Hempty.
  - cbn. intros H Hne. apply Ok_inj in H. congruence.
  - assert (Hsize : List.length (nditer index_perf) = size index_perf)
      by reflexivity.
    destruct (Nat.le_gt_cases (size index_perf) (size stock_perf))
      as [Hlen | Hlen].
    + assert (Hlen' : (List.length (nditer index_perf)
                       <= List.length (elements stock_perf))%nat)
        by (rewrite elements_length, Hsize; exact Hlen).
      pose proof (compare_loop_signed_sum
                    (nditer index_perf) (elements stock_perf) [] 0 Hlen')
        as Hloop.
      cbn [app List.length Z.of_nat] in Hloop. rewrite Hloop.
      cbn [bind]. cbv zeta.
      destruct (signed_sum_parity
                  (nditer index_perf) (elements stock_perf) Hlen')
        as (k & Hk & Hsum).
      rewrite Hsize in Hk, Hsum.
      rewrite Z.add_0_l.
      set (counter := signed_sum (nditer index_perf) (elements stock_perf))
        in *.
      destruct (Z.eqb_spec counter 3) as [H3 | H3];
        [| destruct (Z.eqb_spec counter (-3)) as [Hm3 | Hm3]].
      * intros _ _. rewrite Hsum in H3.
        split; [lia |].
        apply Nat.odd_spec. exists (Z.to_nat (k + 1)). lia.
      * intros _ _. rewrite Hsum in Hm3.
        split; [lia |].
        apply Nat.odd_spec. exists (Z.to_nat (k - 2)). lia.
      * intros H Hne. apply Ok_inj in H. congruence.
    + assert (Hlen' : (List.length (elements stock_perf)
                       < List.length (nditer index_perf))%nat)
        by (rewrite elements_length, Hsize; exact Hlen).
      pose proof (compare_loop_index_error
                    (nditer index_perf) (elements stock_perf) [] 0 Hlen')
        as Hloop.
      cbn [app List.length Z.of_nat] in Hloop. rewrite Hloop.
      discriminate.
Qed.

(** X17.  When both performance sequences have entries and the index
    sequence is the longer one, the comparison reads past the end of the
    stock sequence and the technique calculator raises an [IndexError]. *)
Theorem technique_longer_index_raises :
  size stock_perf <> O ->
  (size stock_perf < size index_perf)%nat ->
  compare_index_with_stock_performance get_performance e
    = Raise IndexError /\
  calculate_technique get_performance e = Raise IndexError.
Proof.
  intros Hne Hlen.
  assert (Hrun : compare_index_with_stock_performance get_performance e
                 = Raise IndexError).
  { rewrite compare_run.
    apply Nat.eqb_neq in Hne. rewrite Hne.
    replace (Nat.eqb (size index_perf) 0) with false
      by (symmetry; apply Nat.eqb_neq; lia).
    cbn [orb].
    apply (compare_loop_index_error
             (nditer index_perf) (elements stock_perf) [] 0).
    rewrite elements_length. exact Hlen. }
  split; [exact Hrun |].
  unfold calculate_technique. rewrite Hrun. reflexivity.
Qed.

End TechniquePositions.

Lemma technique_needs_three_positions_witness :
  (3 <= 3 <= 3)%nat /\ Nat.odd 3 = true.
Proof.
  apply (technique_needs_three_positions
           Sample.performance Sample.lagging
           (map close Sample.flat_bars) (map close Sample.rising_bars)
           {| memory := Sample.block_performance
                          90 (map close Sample.flat_bars) 30;
              backwards := true |}
           {| memory := Sample.block_performance
                          90 (map close Sample.rising_bars) 30;
              backwards := true |}
           eq_refl eq_refl eq_refl eq_refl 1).
  - vm_compute. reflexivity.
  - discriminate.
Defined.

Lemma technique_longer_index_raises_witness :
  compare_index_with_stock_performance Sample.performance Sample.short_history
    = Raise IndexError /\
  calculate_technique Sample.performance Sample.short_history
    = Raise IndexError.
Proof.
  apply (technique_longer_index_raises
           Sample.performance Sample.short_history
           (map close (firstn 30 Sample.flat_bars))
           (map close Sample.rising_bars)
           {| memory := Sample.block_performance
                          30 (map close (firstn 30 Sample.flat_bars)) 30;
              backwards := true |}
           {| memory := Sample.block_performance
                          90 (map close Sample.rising_bars) 30;
              backwards := true |}
           eq_refl eq_refl eq_refl eq_refl).
  - vm_compute. discriminate.
  - vm_compute. lia.
Defined.

(** ** Growth without a history *)

(** X18.  With no annual EPS on record [eps_last] stays 0, the
    percentage is 100 for every EPS estimate other than zero, and the
    growth sub-score is +1. *)
Theorem growth_without_eps_history (e : engine) :
  available_eps e = [] ->
  ~ (data_attr (the_stock e) "recommendation" "eps" == 0)%Q ->
  eps_last_loop e = 0%Q /\
  (calculate_eps_difference e == 100)%Q /\
  calculate_growing e = Ok 1.
Proof.
  intros Hnone Hest.
  assert (Hlast : eps_last_loop e = 0%Q).
  { rewrite eps_last_loop_oldest. fold (available_eps e).
    rewrite Hnone. reflexivity. }
  assert (Hdiff : (calculate_eps_difference e == 100)%Q).
  { unfold calculate_eps_difference. cbv zeta. rewrite Hlast.
    unfold pydiv.
    destruct (Qeq_bool (data_attr (the_stock e) "recommendation" "eps") 0)
      eqn:Hz.
    - apply Qeq_bool_iff in Hz. contradiction.
    - field. exact Hest. }
  split; [exact Hlast |]. split; [exact Hdiff |].
  rewrite growing_of_difference.
  replace (Qgtb (calculate_eps_difference e) 5) with true; [reflexivity |].
  symmetry. apply Qgtb_true_iff. rewrite Hdiff. reflexivity.
Qed.

Lemma growth_without_eps_history_witness :
  eps_last_loop Sample.no_eps_history = 0%Q /\
  (calculate_eps_difference Sample.no_eps_history == 100)%Q /\
  calculate_growing Sample.no_eps_history = Ok 1.
Proof.
  apply (growth_without_eps_history Sample.no_eps_history).
  - reflexivity.
  - vm_compute. discriminate.
Defined.

(** ** Too few trend snapshots *)

Lemma trend_distribution_beyond (s : stock) (r : recommendation)
    (ts : list trend) (k : Z) :
  recommendation_data s = Some r ->
  trends r = Some ts ->
  Z.of_nat (List.length ts) <= k ->
  trend_distribution s k = Raise IndexError.
Proof.
  intros Hr Hts Hk. unfold trend_distribution.
  rewrite Hr, Hts. cbn [key bind].
  rewrite (py_index_beyond ts k Hk). reflexivity.
Qed.

(** X19.  The rating change reads the third trend snapshot: with fewer
    than three snapshots the momentum calculator never returns, it raises
    a [KeyError] or an [IndexError]. *)
Theorem momentum_needs_three_trends (e : engine) (r : recommendation)
    (ts : list trend) :
  recommendation_data (the_stock e) = Some r ->
  trends r = Some ts ->
  (List.length ts < 3)%nat ->
  exists x : exn,
    calculate_rating_differences_in_percent e = Raise x /\
    calculate_momentum e = Raise x /\
    (x = KeyError \/ x = IndexError).
Proof.
  intros Hr Hts Hlen.
  assert (Hdiff : exists x : exn,
             calculate_rating_differences_in_percent e = Raise x /\
             (x = KeyError \/ x = IndexError)).
  { unfold calculate_rating_differences_in_percent.
    destruct (trend_distribution (the_stock e) 0) as [d0 | x] eqn:Hd0.
    - cbn [bind].
      destruct (calculate_trendsrating d0) as [rating | x] eqn:Hrating.
      + cbn [bind].
        rewrite (trend_distribution_beyond (the_stock e) r ts 2 Hr Hts)
          by lia.
        exists IndexError. split; [reflexivity | right; reflexivity].
      + exists x. split; [reflexivity |].
        left. exact (trendsrating_raises d0 x Hrating).
    - exists x. split; [reflexivity |].
      revert Hd0. unfold trend_distribution. rewrite Hr, Hts.
      cbn [key bind].
      destruct (py_index ts 0) as [t0 | y] eqn:Ht0; cbn [bind].
      + destruct (distributionList t0); [discriminate |].
        intros [= <-]. left; reflexivity.
      + intros [= <-]. right. exact (py_index_raises ts 0 y Ht0). }
  destruct Hdiff as (x & Hdiff & Hx).
  exists x. split; [exact Hdiff |]. split; [| exact Hx].
  unfold calculate_momentum. rewrite Hdiff. reflexivity.
Qed.

Lemma momentum_needs_three_trends_witness :
  exists x : exn,
    calculate_rating_differences_in_percent Sample.two_trends = Raise x /\
    calculate_momentum Sample.two_trends = Raise x /\
    (x = KeyError \/ x = IndexError).
Proof.
  eapply (momentum_needs_three_trends Sample.two_trends).
  - reflexivity.
  - reflexivity.
  - vm_compute. lia.
Defined.

(** ** What [analyse] leaves behind *)

(** Only the cached composite changes, and the decision is the one of
    the thresholds on it. *)
Lemma analyse_result (get_performance : list npfloat -> Z -> perf_seq)
    (e after : engine) (d : decision) :
  analyse get_performance e = Ok (after, d) ->
  after = set_calc e (calc after) /\
  d = classify (calc after) (buy e) (sell e).
Proof.
  unfold analyse.
  destruct (levermann_sum get_performance e) as [c | x].
  - cbn [bind]. intros H. apply Ok_inj in H. injection H as <- <-.
    split; reflexivity.
  - destruct (caught x); [| discriminate].
    cbn [bind]. intros H. apply Ok_inj in H. injection H as <- <-.
    split; [destruct e; reflexivity | reflexivity].
Qed.

(** X21.  A HOLD takes a composite strictly between the thresholds: when
    the buy threshold is at most one above the sell threshold, [analyse]
    never returns HOLD. *)
Theorem analyse_no_hold_between_adjacent_thresholds
    (get_performance : list npfloat -> Z -> perf_seq)
    (e after : engine) (d : decision) :
  buy e <= sell e + 1 ->
  analyse get_performance e = Ok (after, d) ->
  d <> HOLD.
Proof.
  intros Hthr Hrun Hd.
  destruct (analyse_result get_performance e after d Hrun) as [_ Hclass].
  rewrite Hd in Hclass. symmetry in Hclass.
  apply classify_hold_inv in Hclass. lia.
Qed.

Lemma analyse_no_hold_between_adjacent_thresholds_witness :
  classify 6 6 5 <> HOLD.
Proof.
  apply (analyse_no_hold_between_adjacent_thresholds
           Sample.performance
           (set_sell (set_buy (Sample.complete 2.2) 6) 5)
           (set_calc (set_sell (set_buy (Sample.complete 2.2) 6) 5) 6)
           (classify 6 6 5)).
  - vm_compute. discriminate.
  - vm_compute. reflexivity.
Defined.

(** X22.  Without a bar array, or with an empty one, the valuation
    calculator raises ([TypeError], [IndexError]) whatever the EPS
    figures are, and [analyse] answers from the cached composite. *)
Theorem analyse_without_bars (get_performance : list npfloat -> Z -> perf_seq)
    (e : engine) :
  bars e = None \/ bars e = Some [] ->
  (exists x : exn,
     calculate_rating e = Raise x /\ (x = TypeError \/ x = IndexError)) /\
  analyse get_performance e = Ok (e, classify (calc e) (buy e) (sell e)).
Proof.
  intros Hbars.
  assert (Hrating : exists x : exn,
             calculate_rating e = Raise x /\
             (x = TypeError \/ x = IndexError)).
  { unfold calculate_rating, calculate_price_earnings_ratios.
    destruct Hbars as [-> | ->].
    - exists TypeError. split; [reflexivity | left; reflexivity].
    - exists IndexError. split; [reflexivity | right; reflexivity]. }
  split; [exact Hrating |].
  destruct Hrating as (x & Hrating & Hx).
  unfold analyse.
  rewrite (levermann_sum_raises get_performance e x).
  - destruct Hx as [-> | ->]; reflexivity.
  - unfold calculators. rewrite quality_points, Hrating. reflexivity.
Qed.

Lemma analyse_without_bars_witness :
  (exists x : exn,
     calculate_rating Sample.without_bars = Raise x /\
     (x = TypeError \/ x = IndexError)) /\
  analyse Sample.performance Sample.without_bars
    = Ok (Sample.without_bars,
          classify (calc Sample.without_bars) (buy Sample.without_bars)
                   (sell Sample.without_bars)).
Proof.
  apply (analyse_without_bars Sample.performance Sample.without_bars).
  right. reflexivity.
Defined.
